(** * simple-server: four protocol listeners in one Go process

    A shallow embedding of [server.go]: the HTTP listener with its two
    routes, the UDP echo listener on port 53, the raw ICMP echo listener,
    the SMTP greeting listener and [main], which starts the four of them
    as goroutines.

    The program is all input and output, so the embedding is organised
    around an explicit world: every call that leaves the process (a log
    record, a datagram handed to [WriteTo], a response header, bytes
    accepted by standard output, [os.Exit]) appends an event to a trace,
    and what the environment answers to a call (the outcome of a bind, of
    [ReadFrom], of [Accept], the parsed multipart form) is an explicit
    argument.  Go code is a computation in a state monad over that world
    whose outcome is either a value or the termination of the whole
    process, the way [log.Fatal] ends it. *)

From Stdlib Require Import List String Ascii ZArith NArith Lia Bool Arith Permutation.
From Stdlib.Strings Require Import Byte.
Import ListNotations.

Local Open Scope list_scope.
Local Open Scope string_scope.

Set Implicit Arguments.

(** ** Bytes and text *)

Definition bytes : Type := list byte.

(** [[]byte(s)]: a Go string is its bytes. *)
Definition bytes_of (s : string) : bytes := list_byte_of_string s.

Definition hex_digit (n : N) : ascii :=
  match n with
  | 0%N => "0" | 1%N => "1" | 2%N => "2" | 3%N => "3"
  | 4%N => "4" | 5%N => "5" | 6%N => "6" | 7%N => "7"
  | 8%N => "8" | 9%N => "9" | 10%N => "a" | 11%N => "b"
  | 12%N => "c" | 13%N => "d" | 14%N => "e" | _ => "f"
  end%char.

(** The verb [%x] applied to a byte slice: two lower-case hexadecimal
    digits per byte, no separator. *)
Fixpoint fmt_hex (b : bytes) : string :=
  match b with
  | [] => ""
  | x :: r =>
      let n := Byte.to_N x in
      String (hex_digit (N.div n 16)) (String (hex_digit (N.modulo n 16)) (fmt_hex r))
  end.

(** [time.Duration] counts nanoseconds. *)
Definition time_Second : Z := 1000000000.

(** ** The world outside the process *)

Inductive ListenerId : Type := HTTP | DNS | ICMP | SMTP.

Definition ListenerId_eqb (a b : ListenerId) : bool :=
  match a, b with
  | HTTP, HTTP | DNS, DNS | ICMP, ICMP | SMTP, SMTP => true
  | _, _ => false
  end.

(** What an observer of the process can see, in the order it happens. *)
Inductive Event : Type :=
| EvLog (record : string)                         (* a record on the logging sink *)
| EvExit (code : Z)                               (* os.Exit(code) *)
| EvSendTo (l : ListenerId) (payload : bytes) (addr : string)
                                                  (* PacketConn.WriteTo(payload, addr) *)
| EvWriteHeader (status : Z)                      (* the response's status line *)
| EvWriteBody (b : bytes)                         (* response body bytes *)
| EvParseForm                                     (* the request body is parsed *)
| EvStdout (b : bytes)                            (* bytes accepted by os.Stdout *)
| EvFileClose (name : string)                     (* multipart.File.Close *)
| EvConnWrite (peer : string) (b : bytes)         (* net.Conn.Write *)
| EvConnRead (peer : string)                      (* net.Conn.Read *)
| EvSleep (d : Z)                                 (* time.Sleep(d) *)
| EvConnClose (peer : string).                    (* net.Conn.Close *)

(** The [http.ResponseWriter] of the request being served. *)
Record ResponseWriter : Type := mkResponse {
  wroteHeader : bool;
  status : Z;
  body : bytes
}.

Definition fresh_response : ResponseWriter := mkResponse false 0 [].

(** [w_room] is how many more bytes standard output accepts before a
    write to it fails ([None]: it never fails). *)
Record World : Type := mkWorld {
  w_trace : list Event;
  w_resp : ResponseWriter;
  w_stdout : bytes;
  w_room : option nat
}.

Definition world0 : World := mkWorld [] fresh_response [] None.

(** ** Go computations *)

(** A call either returns or ends the process ([os.Exit]); in the
    second case nothing after it runs, deferred calls included. *)
Inductive Outcome (A : Type) : Type :=
| Val (a : A)
| Exited (code : Z).

Arguments Exited {A} code.

Definition M (A : Type) : Type := World -> Outcome A * World.

Definition ret {A} (a : A) : M A := fun w => (Val a, w).

Definition bind {A B} (m : M A) (k : A -> M B) : M B :=
  fun w =>
    match m w with
    | (Val a, w') => k a w'
    | (Exited c, w') => (Exited c, w')
    end.

Declare Scope go_scope.
Delimit Scope go_scope with go.
Notation "x <- m ;; k" := (bind m (fun x => k))
  (at level 61, m at next level, right associativity) : go_scope.
Notation "m ;; k" := (bind m (fun _ => k))
  (at level 61, right associativity) : go_scope.
Local Open Scope go_scope.

(** The world with [evs] added at the end of its trace. *)
Definition add_events (w : World) (evs : list Event) : World :=
  mkWorld (w_trace w ++ evs) (w_resp w) (w_stdout w) (w_room w).

Definition emit (e : Event) : M unit :=
  fun w => (Val tt, add_events w [e]).

(** [defer d] at the head of [body]: [d] runs when [body] returns.  A
    body that ends the process never returns, and [d] does not run. *)
Definition defer {A} (d : M unit) (body : M A) : M A :=
  a <- body ;; d ;; ret a.

Definition os_Exit {A} (code : Z) : M A :=
  fun w => (Exited code, add_events w [EvExit code]).

(** *** package log

    A record is the formatted message; the logger adds a newline when
    the message does not end in one (and a timestamp, left out). *)
Fixpoint ends_in_newline (s : string) : bool :=
  match s with
  | "" => false
  | String c "" => Ascii.eqb c "010"%char
  | String _ r => ends_in_newline r
  end.

Definition nl : string := String "010"%char "".

Definition log_line (s : string) : string :=
  if ends_in_newline s then s else s ++ nl.

Definition log_Output (s : string) : M unit := emit (EvLog (log_line s)).

Definition log_Printf (formatted : string) : M unit := log_Output formatted.
Definition log_Println (msg : string) : M unit := log_Output (msg ++ nl).

(** [log.Fatal] and [log.Fatalf]: the record, then [os.Exit(1)]. *)
Definition log_Fatal {A} (msg : string) : M A := log_Output msg ;; os_Exit 1.

(** ** The datagram and raw listeners *)

(** What one read of a listener's socket returns: an error, or a unit
    of [payload] bytes from [addr].  For the UDP socket the unit is the
    datagram's payload; for the raw [ip4:icmp] socket it is the IPv4
    packet as the kernel hands it over, header first, then the ICMP
    message. *)
Inductive RecvResult : Type :=
| RecvErr (err : string)
| RecvOk (payload : bytes) (addr : string).

(** [make([]byte, n)] *)
Definition make_bytes (n : nat) : bytes := repeat "000"%byte n.

(** The read of the socket, which is all of [ReadFrom] for the UDP
    listener: it copies the unit into the front of [buf], as much of it
    as fits, and returns the count; the rest of [buf] keeps what it
    held.  On an error nothing is copied and the count is 0. *)
Definition ReadFrom (r : RecvResult) (buf : bytes)
  : bytes * nat * string * option string :=
  match r with
  | RecvErr e => (buf, 0, "", Some e)
  | RecvOk p a =>
      let n := Nat.min (List.length p) (List.length buf) in
      ((firstn n p ++ skipn n buf)%list, n, a, None)
  end.

(** [copy(dst, src)]: as many bytes as both hold, to the front of
    [dst]. *)
Definition copy_bytes (dst src : bytes) : bytes :=
  (firstn (List.length dst) src ++ skipn (List.length src) dst)%list.

(** [stripIPv4Header(n, b)] of package net: when [b] begins with an
    IPv4 header of [l] bytes ([l] is four times the low half of the
    first byte, the version is its high half), what follows the header
    is moved to the front of [b] and the count loses [l].  The kernel
    hands a raw socket whole headers, so the count is at least [l]. *)
Definition stripIPv4Header (n : nat) (b : bytes) : nat * bytes :=
  if (List.length b <? 20)%nat then (n, b)
  else
    let b0 := Byte.to_N (hd "000"%byte b) in
    let l := N.to_nat (N.shiftl (N.land b0 15) 2) in
    if ((l <? 20) || (List.length b <? l))%nat then (n, b)
    else if negb (N.shiftr b0 4 =? 4)%N then (n, b)
    else (n - l, copy_bytes b (skipn l b)).

(** [ReadFrom] of the raw listener ([IPConn.ReadFrom]): the read of the
    socket fills [buf] with the packet, header included, and the header
    is stripped afterwards. *)
Definition IPConn_ReadFrom (r : RecvResult) (buf : bytes)
  : bytes * nat * string * option string :=
  let '(buf1, n, addr, err) := ReadFrom r buf in
  match err with
  | Some e => (buf1, n, addr, Some e)
  | None =>
      let '(n', buf2) := stripIPv4Header n buf1 in
      (buf2, n', addr, None)
  end.

(** [WriteTo]: its result is dropped by both callers. *)
Definition WriteTo (l : ListenerId) (p : bytes) (addr : string) : M unit :=
  emit (EvSendTo l p addr).

(** One turn of the [for] loop of [startDNSServer]; the value is the
    buffer as the next turn finds it. *)
Definition dns_iter (r : RecvResult) (buf : bytes) : M bytes :=
  let '(buf', n, addr, err) := ReadFrom r buf in
  match err with
  | Some e => log_Printf ("Error reading from DNS: " ++ e ++ nl) ;; ret buf'
  | None =>
      log_Printf ("DNS Request from " ++ addr ++ ": " ++ fmt_hex (firstn n buf') ++ nl) ;;
      WriteTo DNS (firstn n buf') addr ;;
      ret buf'
  end.

(** One turn of the [for] loop of [startICMPServer]. *)
Definition icmp_iter (r : RecvResult) (buf : bytes) : M bytes :=
  let '(buf', n, addr, err) := IPConn_ReadFrom r buf in
  match err with
  | Some e => log_Printf ("Error reading ICMP: " ++ e ++ nl) ;; ret buf'
  | None =>
      log_Printf ("ICMP Request from " ++ addr ++ nl) ;;
      WriteTo ICMP (firstn n buf') addr ;;
      ret buf'
  end.

(** The loop, run against the units the environment delivers.  The
    source's loop has no exit of its own; over a finite list of units
    the model stops where the code would block in [ReadFrom]. *)
Fixpoint recv_loop (iter : RecvResult -> bytes -> M bytes)
  (ins : list RecvResult) (buf : bytes) : M bytes :=
  match ins with
  | [] => ret buf
  | r :: rest => buf' <- iter r buf ;; recv_loop iter rest buf'
  end.

(** The outcome of binding a listener's endpoint: [None] when bound, the
    error's text otherwise. *)
Definition BindResults : Type := ListenerId -> option string.

Definition startDNSServer (binds : BindResults) (ins : list RecvResult) : M bytes :=
  match binds DNS with
  | Some e => log_Fatal ("Failed to start DNS server: " ++ e)
  | None =>
      log_Println "DNS server is listening on port 53" ;;
      recv_loop dns_iter ins (make_bytes 512)
  end.

Definition startICMPServer (binds : BindResults) (ins : list RecvResult) : M bytes :=
  match binds ICMP with
  | Some e => log_Fatal ("Failed to start ICMP server: " ++ e)
  | None =>
      log_Println "ICMP server is listening" ;;
      recv_loop icmp_iter ins (make_bytes 1024)
  end.

(** ** The greeting listener *)

(** An accepted connection: its peer, and the error (if any) that
    writing to it returns. *)
Record Conn : Type := mkConn {
  peer : string;
  write_err : option string
}.

Inductive AcceptResult : Type :=
| AcceptErr (err : string)
| AcceptOk (c : Conn).

Definition Conn_RemoteAddr (c : Conn) : string := peer c.

Definition Conn_Write (c : Conn) (b : bytes) : M (option string) :=
  emit (EvConnWrite (peer c) b) ;; ret (write_err c).

Definition Conn_Close (c : Conn) : M unit := emit (EvConnClose (peer c)).

Definition time_Sleep (d : Z) : M unit := emit (EvSleep d).

(** The function literal that [startSMTPServer] starts per connection. *)
Definition smtp_conn_handler (c : Conn) : M unit :=
  defer (Conn_Close c)
    (log_Printf ("SMTP Connection from " ++ Conn_RemoteAddr c ++ nl) ;;
     _ <- Conn_Write c (bytes_of ("220 Simple SMTP Test Server" ++ nl)) ;;
     time_Sleep (10 * time_Second)).

(** [go f(x)], read as the run in which the new goroutine has the
    processor to itself from its first statement to its last.  It is
    one of the runs the scheduler allows; how the statements of several
    goroutines may fall between each other is [pool_run] below. *)
Definition go (f : M unit) : M unit := f.

(** One turn of the accept loop. *)
Definition smtp_iter (a : AcceptResult) : M unit :=
  match a with
  | AcceptErr e => log_Printf ("Failed to accept SMTP connection: " ++ e ++ nl)
  | AcceptOk c => go (smtp_conn_handler c)
  end.

Fixpoint accept_loop (ins : list AcceptResult) : M unit :=
  match ins with
  | [] => ret tt
  | a :: rest => smtp_iter a ;; accept_loop rest
  end.

Definition startSMTPServer (binds : BindResults) (ins : list AcceptResult) : M unit :=
  match binds SMTP with
  | Some e => log_Fatal ("Failed to start SMTP server: " ++ e)
  | None =>
      log_Println "SMTP server is listening on port 25" ;;
      accept_loop ins
  end.

(** ** The HTTP listener *)

(** *** Requests *)

(** [url.URL] as the server fills it from a request target in origin
    form: no scheme, host, user or fragment, and a path that the client
    sent in the encoding [escape] gives it, so that [RawPath] is
    empty. *)
Record url_URL : Type := mkURL {
  Path : string;         (* the path, decoded *)
  ForceQuery : bool;     (* the target ended in a bare question mark *)
  RawQuery : string      (* the query, as sent *)
}.

(** *** Package net/url: how a path is written *)

Definition is_alnum (c : ascii) : bool :=
  let n := N_of_ascii c in
  ((97 <=? n) && (n <=? 122) || (65 <=? n) && (n <=? 90) || (48 <=? n) && (n <=? 57))%N.

Definition in_string (c : ascii) (s : string) : bool :=
  existsb (Ascii.eqb c) (list_ascii_of_string s).

(** [shouldEscape(c, encodePath)]: letters, digits, the marks
    [-_.~] and the reserved characters other than the question mark
    are written as they are. *)
Definition shouldEscape (c : ascii) : bool :=
  if is_alnum c then false
  else if in_string c "-_.~" then false
  else if in_string c "$&+,/:;=@" then false
  else true.

Definition upperhex (n : N) : ascii :=
  match get (N.to_nat n) "0123456789ABCDEF" with
  | Some c => c
  | None => "0"%char
  end.

(** [escape(s, encodePath)]: a byte to escape becomes a percent sign
    and its two hexadecimal digits. *)
Fixpoint escape (s : string) : string :=
  match s with
  | EmptyString => EmptyString
  | String c r =>
      if shouldEscape c then
        String "%" (String (upperhex (N.shiftr (N_of_ascii c) 4))
                           (String (upperhex (N.land (N_of_ascii c) 15)) (escape r)))
      else String c (escape r)
  end.

Definition ishex (c : ascii) : bool :=
  let n := N_of_ascii c in
  ((48 <=? n) && (n <=? 57) || (97 <=? n) && (n <=? 102) || (65 <=? n) && (n <=? 70))%N.

Definition unhex (c : ascii) : N :=
  let n := N_of_ascii c in
  if ((48 <=? n) && (n <=? 57))%N then n - 48
  else if ((97 <=? n) && (n <=? 102))%N then n - 97 + 10
  else if ((65 <=? n) && (n <=? 70))%N then n - 65 + 10
  else 0.

(** [unescape(s, encodePath)]: the inverse; a percent sign that two
    hexadecimal digits do not follow is an error. *)
Fixpoint unescape (s : string) : option string :=
  match s with
  | EmptyString => Some EmptyString
  | String c r =>
      if Ascii.eqb c "%" then
        match r with
        | String a (String b r') =>
            if ishex a && ishex b then
              option_map (String (ascii_of_N (N.lor (N.shiftl (unhex a) 4) (unhex b))))
                         (unescape r')
            else None
        | _ => None
        end
      else option_map (String c) (unescape r)
  end.

(** [URL.EscapedPath]: with no [RawPath], the path escaped; the path
    [*] is kept. *)
Definition EscapedPath (u : url_URL) : string :=
  if Path u =? "*" then "*" else escape (Path u).

(** The part of [s] before its first slash, and the rest from the slash
    on (empty when there is none). *)
Fixpoint cut_slash (s : string) : string * string :=
  match s with
  | EmptyString => (EmptyString, EmptyString)
  | String c r =>
      if Ascii.eqb c "/" then (EmptyString, s)
      else let '(a, b) := cut_slash r in (String c a, b)
  end.

(** [URL.String] of a URL without scheme, host, user and fragment: the
    escaped path, after [./] if its first segment holds a colon, then
    the query behind a question mark. *)
Definition URL_String (u : url_URL) : string :=
  let path := EscapedPath u in
  (if existsb (Ascii.eqb ":") (list_ascii_of_string (fst (cut_slash path)))
   then "./" else "")
  ++ path
  ++ (if ForceQuery u || negb (RawQuery u =? "") then "?" ++ RawQuery u else "").

(** A file part of a multipart form: its name, its bytes, and the error
    (if any) that opening it returns. *)
Record FileHeader : Type := mkFileHeader {
  Filename : string;
  Content : bytes;
  OpenErr : option string
}.

(** [multipart.Form]: the two maps, as association lists. *)
Record Form : Type := mkForm {
  Value : list (string * list string);
  File : list (string * list FileHeader)
}.

(** What [ParseMultipartForm] makes of the request body. *)
Inductive ParseResult : Type :=
| ParseErr (err : string)
| Parsed (f : Form).

(** [http.Request] as the server reads one off a connection.  The
    target as the client wrote it ([RequestURI]) is not kept: the code
    looks at it only to see whether it is [*], which is when the path
    is. *)
Record Request : Type := mkRequest {
  Method : string;
  URL : url_URL;
  RemoteAddr : string;
  MultipartForm : ParseResult
}.

Fixpoint form_files (key : string) (m : list (string * list FileHeader)) : list FileHeader :=
  match m with
  | [] => []
  | (k, fhs) :: rest => if k =? key then fhs else form_files key rest
  end.

(** [Request.FormFile]: parse the body, then open the first file under
    [key]. *)
Definition FormFile (r : Request) (key : string) : M (string + FileHeader) :=
  emit EvParseForm ;;
  match MultipartForm r with
  | ParseErr e => ret (inl e)
  | Parsed f =>
      match form_files key (File f) with
      | fh :: _ =>
          match OpenErr fh with
          | Some e => ret (inl e)
          | None => ret (inr fh)
          end
      | [] => ret (inl "http: no such file")
      end
  end.

Definition File_Close (f : FileHeader) : M unit := emit (EvFileClose (Filename f)).

(** *** Standard output and [io.Copy] *)

(** [os.Stdout.Write(p)]: the sink takes what it has room for; a short
    count comes with an error. *)
Definition Stdout_Write (p : bytes) : M (nat * option string) :=
  fun w =>
    let n := match w_room w with
             | None => List.length p
             | Some k => Nat.min k (List.length p)
             end in
    (Val (n, if (n <? List.length p)%nat then Some "short write" else None),
     mkWorld (w_trace w ++ [EvStdout (firstn n p)]) (w_resp w)
             (w_stdout w ++ firstn n p)%list
             (option_map (fun k => k - n) (w_room w))).

(** [io.Copy] moves its source through a buffer of 32 KiB. *)
Definition copy_buf_size : nat := 32 * 1024.

(** The loop of [io.Copy(os.Stdout, src)]: read a buffer-full, write it,
    stop at the end of the source or at the first failed write.  Each
    turn takes at least one byte from a source that is not empty, so
    [S (length src)] turns are enough. *)
Fixpoint io_Copy_loop (fuel : nat) (src : bytes) (written : nat)
  : M (nat * option string) :=
  match fuel with
  | O => ret (written, Some "unreachable")
  | S fuel' =>
      match firstn copy_buf_size src with
      | [] => ret (written, None)
      | chunk =>
          res <- Stdout_Write chunk ;;
          match snd res with
          | Some e => ret (written + fst res, Some e)
          | None => io_Copy_loop fuel' (skipn copy_buf_size src) (written + fst res)
          end
      end
  end.

Definition io_Copy_Stdout (src : bytes) : M (nat * option string) :=
  io_Copy_loop (S (List.length src)) src 0.

(** *** The response writer *)

(** The world with [r] as the response being written. *)
Definition with_resp (w : World) (r : ResponseWriter) : World :=
  mkWorld (w_trace w) r (w_stdout w) (w_room w).

(** [WriteHeader]: the first call fixes the status; a later one is
    ignored. *)
Definition WriteHeader (code : Z) : M unit :=
  fun w =>
    if wroteHeader (w_resp w) then (Val tt, w)
    else (Val tt,
          add_events (with_resp w (mkResponse true code (body (w_resp w))))
                     [EvWriteHeader code]).

(** [Write]: without a status yet, 200 is sent first. *)
Definition Write (b : bytes) : M unit :=
  WriteHeader 200 ;;
  (fun w =>
     (Val tt,
      add_events
        (with_resp w (mkResponse (wroteHeader (w_resp w)) (status (w_resp w))
                                 (body (w_resp w) ++ b)%list))
        [EvWriteBody b])).

Definition http_StatusMethodNotAllowed : Z := 405.
Definition http_StatusBadRequest : Z := 400.
Definition http_StatusNotFound : Z := 404.
Definition http_StatusOK : Z := 200.
Definition http_MethodPost : string := "POST".

(** [http.Error]: the status, then the message and a newline as body. *)
Definition http_Error (msg : string) (code : Z) : M unit :=
  WriteHeader code ;; Write (bytes_of (msg ++ nl)).

(** *** The two handlers of [startHTTPServer] *)

Definition rootHandler (r : Request) : M unit :=
  log_Printf ("HTTP Request: " ++ Method r ++ " " ++ URL_String (URL r)
              ++ " from " ++ RemoteAddr r ++ nl) ;;
  Write (bytes_of ("HTTP server is working!" ++ nl)).

Definition uploadHandler (r : Request) : M unit :=
  if negb (Method r =? http_MethodPost) then
    http_Error "Invalid method" http_StatusMethodNotAllowed
  else
    res <- FormFile r "file" ;;
    match res with
    | inl _ => http_Error "Failed to get file" http_StatusBadRequest
    | inr file =>
        defer (File_Close file)
          (log_Println "File uploaded successfully" ;;
           _ <- io_Copy_Stdout (Content file) ;;
           Write (bytes_of ("File upload successful" ++ nl)))
    end.

(** *** Package path and the canonical form of a path *)

Fixpoint ends_in_slash (s : string) : bool :=
  match s with
  | "" => false
  | String c "" => Ascii.eqb c "/"%char
  | String _ r => ends_in_slash r
  end.

(** [strings.Count(s, "/")] *)
Fixpoint count_slash (s : string) : nat :=
  match s with
  | EmptyString => 0
  | String c r => if Ascii.eqb c "/"%char then S (count_slash r) else count_slash r
  end.

(** [strings.Split(s, "/")] *)
Fixpoint split_slash (s : string) : list string :=
  match s with
  | EmptyString => [EmptyString]
  | String c r =>
      if Ascii.eqb c "/"%char then EmptyString :: split_slash r
      else match split_slash r with
           | x :: xs => String c x :: xs
           | [] => [String c EmptyString]
           end
  end.

(** The elements that [path.Clean] keeps of a rooted path, the last one
    kept first: an empty element and [.] are dropped, and [..] drops
    the element before it, if there is one. *)
Fixpoint clean_elems (kept : list string) (els : list string) : list string :=
  match els with
  | [] => kept
  | e :: rest =>
      if (e =? "") || (e =? ".") then clean_elems kept rest
      else if e =? ".." then clean_elems (tl kept) rest
      else clean_elems (e :: kept) rest
  end.

Fixpoint join_slash (els : list string) : string :=
  match els with
  | [] => ""
  | e :: rest => "/" ++ e ++ join_slash rest
  end.

(** [path.Clean] of a rooted path *)
Definition path_Clean (p : string) : string :=
  match rev (clean_elems [] (split_slash p)) with
  | [] => "/"
  | els => join_slash els
  end.

(** [cleanPath] of net/http: the canonical form of a path, rooted and
    without dot segments or doubled slashes; a slash at the end is
    kept. *)
Definition cleanPath (p : string) : string :=
  if p =? "" then "/"
  else
    let p := if prefix "/" p then p else "/" ++ p in
    let np := path_Clean p in
    if ends_in_slash p && negb (np =? "/") then np ++ "/" else np.

(** *** Redirects *)

Definition http_StatusTemporaryRedirect : Z := 307.

Definition dquote : string := String "034"%char "".

(** [htmlEscape] *)
Fixpoint htmlEscape (s : string) : string :=
  match s with
  | EmptyString => EmptyString
  | String c r =>
      (if Ascii.eqb c "&"%char then "&amp;"
       else if Ascii.eqb c "<"%char then "&lt;"
       else if Ascii.eqb c ">"%char then "&gt;"
       else if Ascii.eqb c "034"%char then "&#34;"
       else if Ascii.eqb c "'"%char then "&#39;"
       else String c "") ++ htmlEscape r
  end.

(** The part of [s] before its first [c], and the rest from [c] on. *)
Fixpoint cut_at (c : ascii) (s : string) : string * string :=
  match s with
  | EmptyString => (EmptyString, EmptyString)
  | String d r =>
      if Ascii.eqb d c then (EmptyString, s)
      else let '(a, b) := cut_at c r in (String d a, b)
  end.

(** A byte that [url.Parse] refuses anywhere in a URL. *)
Definition is_ctl (c : ascii) : bool :=
  ((N_of_ascii c <? 32) || (N_of_ascii c =? 127))%N.

(** Whether [url.Parse] accepts a URL that begins with a slash and
    whose path is escaped: it refuses control bytes, and a fragment
    with a percent sign that two hexadecimal digits do not follow. *)
Definition url_Parse_ok (url : string) : bool :=
  negb (existsb is_ctl (list_ascii_of_string url)) &&
  match snd (cut_at "#" url) with
  | String _ frag => match unescape frag with Some _ => true | None => false end
  | EmptyString => true
  end.

(** What [http.Redirect] makes of a [url] that begins with a slash,
    which is what the mux gives it: in a URL that parses, the part
    before the query is cleaned. *)
Definition Redirect_target (url : string) : string :=
  if url_Parse_ok url then
    let '(path, query) := cut_at "?" url in
    let np := path_Clean path in
    (if ends_in_slash path && negb (ends_in_slash np) then np ++ "/" else np) ++ query
  else url.

(** The body of a redirect: a link to the target, and [text], the
    text of the status. *)
Definition Redirect_body (url text : string) : bytes :=
  bytes_of ("<a href=" ++ dquote ++ htmlEscape url ++ dquote ++ ">" ++ text
            ++ "</a>." ++ nl ++ nl).

(** [http.Redirect]: the status is written, and a body for a GET
    alone.  (The [Location] header is not part of the response writer
    here.) *)
Definition http_Redirect (r : Request) (url : string) (code : Z) (text : string) : M unit :=
  let url := Redirect_target url in
  WriteHeader code ;;
  if Method r =? "GET" then Write (Redirect_body url text) else ret tt.

(** *** The mux *)

(** A registered pattern without method, host or wildcard, as
    [parsePattern] reads it: its literal segments, and whether it ends
    in a slash and so stands for the whole subtree. *)
Record pattern : Type := mkPattern {
  segments : list string;
  multi : bool
}.

Definition Handler : Type := Request -> M unit.

Definition ServeMux : Type := list (pattern * Handler).

(** [pathUnescape]: a segment that does not unescape is used as it
    is. *)
Definition pathUnescape (s : string) : string :=
  match unescape s with
  | Some u => u
  | None => s
  end.

(** [firstSegment]: the first segment of a path, unescaped, and the
    rest; the byte in front of the segment is dropped unseen. *)
Definition firstSegment (path : string) : string * string :=
  if path =? "/" then ("/", "")
  else
    match path with
    | EmptyString => (EmptyString, EmptyString)
    | String _ p => let '(seg, rest) := cut_slash p in (pathUnescape seg, rest)
    end.

(** Whether the routing tree reaches the pattern on [path]: segment by
    segment, and at the end either the path is used up or, under a
    pattern that ends in a slash, something of it is left. *)
Fixpoint pattern_matches (segs : list string) (mlt : bool) (path : string) : bool :=
  match segs with
  | [] => if mlt then negb (path =? "") else path =? ""
  | s :: segs' =>
      if path =? "" then false
      else let '(seg, rest) := firstSegment path in
           (seg =? s) && pattern_matches segs' mlt rest
  end.

(** The tree tries a literal segment before the subtree pattern above
    it: of the patterns that match, the one with the most segments
    wins. *)
Fixpoint mux_match (mux : ServeMux) (path : string) : option (pattern * Handler) :=
  match mux with
  | [] => None
  | (pat, h) :: rest =>
      let best := mux_match rest path in
      if pattern_matches (segments pat) (multi pat) path then
        match best with
        | Some (pat', h') =>
            if (List.length (segments pat) <? List.length (segments pat'))%nat
            then Some (pat', h') else Some (pat, h)
        | None => Some (pat, h)
        end
      else best
  end.

(** [exactMatch]: a subtree pattern matches exactly only the path that
    is its own text. *)
Definition exactMatch (n : option (pattern * Handler)) (path : string) : bool :=
  match n with
  | None => false
  | Some (pat, _) =>
      if negb (multi pat) then true
      else if negb (path =? "") && negb (ends_in_slash path) then false
      else (S (List.length (segments pat)) =? count_slash path)%nat
  end.

(** [matchOrRedirect]: the match, or the URL to redirect to when the
    path with a slash added is the text of a subtree pattern. *)
Definition matchOrRedirect (mux : ServeMux) (path : string) (u : url_URL)
  : option (pattern * Handler) * option url_URL :=
  let n := mux_match mux path in
  if negb (exactMatch n path) && negb (ends_in_slash path) then
    if exactMatch (mux_match mux (path ++ "/")) (path ++ "/")
    then (None, Some (mkURL (cleanPath (Path u) ++ "/") false (RawQuery u)))
    else (n, None)
  else (n, None).

Definition http_NotFound (r : Request) : M unit :=
  http_Error "404 page not found" http_StatusNotFound.

Definition RedirectHandler (url : string) (code : Z) : Handler :=
  fun r => http_Redirect r url code "Temporary Redirect".

(** [ServeMux.findHandler]: the path of a CONNECT request is matched as
    it is; the path of any other request is cleaned first, and a
    request whose path was not clean is redirected to the clean one.
    No pattern here names a method, so a request that matches none is
    not found. *)
Definition findHandler (mux : ServeMux) (r : Request) : Handler :=
  let escapedPath := EscapedPath (URL r) in
  if Method r =? "CONNECT" then
    match matchOrRedirect mux escapedPath (URL r) with
    | (_, Some u) => RedirectHandler (URL_String u) http_StatusTemporaryRedirect
    | (Some (_, h), None) => h
    | (None, None) => http_NotFound
    end
  else
    let path := cleanPath escapedPath in
    match matchOrRedirect mux path (URL r) with
    | (_, Some u) => RedirectHandler (URL_String u) http_StatusTemporaryRedirect
    | (n, None) =>
        if negb (path =? escapedPath) then
          RedirectHandler (URL_String (mkURL path false (RawQuery (URL r))))
                          http_StatusTemporaryRedirect
        else
          match n with
          | Some (_, h) => h
          | None => http_NotFound
          end
    end.

(** The request target was [*]: the one target that is parsed to the
    path [*]. *)
Definition RequestURI_is_star (r : Request) : bool := Path (URL r) =? "*".

(** [ServeMux.ServeHTTP]: the target [*] is a bad request; any other
    request goes to the handler found for it. *)
Definition ServeMux_ServeHTTP (mux : ServeMux) (r : Request) : M unit :=
  if RequestURI_is_star r then WriteHeader http_StatusBadRequest
  else findHandler mux r r.

(** The patterns [/] and [/upload]. *)
Definition root_pattern : pattern := mkPattern [] true.
Definition upload_pattern : pattern := mkPattern ["upload"] false.

(** The default mux after the two [http.HandleFunc] calls. *)
Definition DefaultServeMux : ServeMux :=
  [(root_pattern, rootHandler); (upload_pattern, uploadHandler)].

(** The routing tree reaches the pattern [/upload] on [path]. *)
Definition routes_to_upload (path : string) : bool :=
  pattern_matches (segments upload_pattern) (multi upload_pattern) path.

(** [globalOptionsHandler]: it sets a header and writes nothing. *)
Definition globalOptionsHandler (r : Request) : M unit := ret tt.

(** [serverHandler.ServeHTTP] of a server without a handler of its
    own: [OPTIONS *] is answered by the server, everything else by the
    default mux. *)
Definition serverHandler_ServeHTTP (r : Request) : M unit :=
  if RequestURI_is_star r && (Method r =? "OPTIONS") then globalOptionsHandler r
  else ServeMux_ServeHTTP DefaultServeMux r.

(** [response.finishRequest]: a handler that wrote no status has 200
    written for it. *)
Definition finishRequest : M unit :=
  fun w => if wroteHeader (w_resp w) then (Val tt, w) else WriteHeader http_StatusOK w.

(** The server gives every request a response writer of its own, calls
    the handler, and finishes the response.  The events of a request
    are what the handlers of [server.go] and the mux do for it; what
    the server may write to the log on its own account while it serves
    (its warning about a semicolon in a query, for one) is not among
    them. *)
Definition serve (r : Request) : M unit :=
  (fun w => (Val tt, with_resp w fresh_response)) ;;
  serverHandler_ServeHTTP r ;;
  finishRequest.

(** [conn.serve]: the goroutine of one connection serves the requests
    that arrive on it one after another. *)
Fixpoint conn_serve (reqs : list Request) : M unit :=
  match reqs with
  | [] => ret tt
  | r :: rest => serve r ;; conn_serve rest
  end.

(** What [Accept] of the HTTP listener returns: an error that is not
    temporary, or a connection with the requests it will bring. *)
Inductive HTTPAccept : Type :=
| HTTPAcceptErr (err : string)
| HTTPAcceptOk (reqs : list Request).

(** [Server.Serve]: every connection accepted gets a goroutine; an
    error of [Accept] that is not temporary is returned.  Over a
    finite list of results the model stops, with no error, where the
    code would block in [Accept]. *)
Fixpoint http_Serve (ins : list HTTPAccept) : M (option string) :=
  match ins with
  | [] => ret None
  | HTTPAcceptErr e :: _ => ret (Some e)
  | HTTPAcceptOk reqs :: rest => go (conn_serve reqs) ;; http_Serve rest
  end.

(** [http.ListenAndServe]: the error of the bind, or what [Serve]
    returns. *)
Definition http_ListenAndServe (binds : BindResults) (ins : list HTTPAccept)
  : M (option string) :=
  match binds HTTP with
  | Some e => ret (Some e)
  | None => http_Serve ins
  end.

(** What [startHTTPServer] does with the error that
    [http.ListenAndServe] returns: [log.Fatal]. *)
Definition ListenAndServe_returned (err : option string) : M unit :=
  match err with
  | Some e => log_Fatal e
  | None => ret tt
  end.

Definition startHTTPServer (binds : BindResults) (ins : list HTTPAccept) : M unit :=
  log_Println "Starting HTTP server on port 8080" ;;
  err <- http_ListenAndServe binds ins ;;
  ListenAndServe_returned err.

(** ** The process: [main] and its four goroutines *)

(** [main] starts the four listeners with [go] and blocks in
    [select {}].  From then on the scheduler decides which goroutine
    runs, and the environment what arrives; a schedule lists, in the
    order they happen, the goroutine starts and the returns of the
    blocking calls. *)
Inductive Stimulus : Type :=
| Start (l : ListenerId)          (* goroutine [l] runs from its first statement to its loop *)
| Request_ (r : Request)          (* a connection of the HTTP server reads a request *)
| HTTPAcceptFails (e : string)    (* [Accept] of the HTTP listener fails for good *)
| Datagram (r : RecvResult)       (* [ReadFrom] of the UDP listener returns *)
| RawUnit (r : RecvResult)        (* [ReadFrom] of the ICMP listener returns *)
| Accept (a : AcceptResult).      (* [Accept] of the SMTP listener returns *)

Record Process : Type := mkProcess {
  p_world : World;
  p_exit : option Z;                (* [Some c] once [os.Exit(c)] was called *)
  p_started : ListenerId -> bool;   (* the listener is in its loop *)
  p_dns_buf : bytes;                (* [buf] of [startDNSServer] *)
  p_icmp_buf : bytes                (* [buf] of [startICMPServer] *)
}.

(** The process when [main] reaches [select {}]: four goroutines
    created, none of them run yet. *)
Definition main_init (w : World) : Process :=
  mkProcess w None (fun _ => false) [] [].

Definition mark_started (l : ListenerId) (p : Process) : Process :=
  mkProcess (p_world p) (p_exit p)
            (fun l' => if ListenerId_eqb l l' then true else p_started p l')
            (p_dns_buf p) (p_icmp_buf p).

Definition set_dns_buf (b : bytes) (p : Process) : Process :=
  mkProcess (p_world p) (p_exit p) (p_started p) b (p_icmp_buf p).

Definition set_icmp_buf (b : bytes) (p : Process) : Process :=
  mkProcess (p_world p) (p_exit p) (p_started p) (p_dns_buf p) b.

(** Run a piece of a goroutine in the process: if it returns, [k]
    stores what it leaves behind; if it calls [os.Exit], the process is
    over. *)
Definition run_in {A} (p : Process) (m : M A) (k : A -> Process -> Process) : Process :=
  match m (p_world p) with
  | (Val a, w') =>
      k a (mkProcess w' (p_exit p) (p_started p) (p_dns_buf p) (p_icmp_buf p))
  | (Exited c, w') =>
      mkProcess w' (Some c) (p_started p) (p_dns_buf p) (p_icmp_buf p)
  end.

(** A unit that arrives for a listener that is not in its loop is not
    handled, and nothing at all happens in a process that has exited. *)
Definition step (binds : BindResults) (s : Stimulus) (p : Process) : Process :=
  match p_exit p with
  | Some _ => p
  | None =>
      match s with
      | Start l =>
          if p_started p l then p
          else
            match l with
            | HTTP => run_in p (startHTTPServer binds []) (fun _ => mark_started HTTP)
            | DNS =>
                run_in p (startDNSServer binds [])
                       (fun buf p' => mark_started DNS (set_dns_buf buf p'))
            | ICMP =>
                run_in p (startICMPServer binds [])
                       (fun buf p' => mark_started ICMP (set_icmp_buf buf p'))
            | SMTP => run_in p (startSMTPServer binds []) (fun _ => mark_started SMTP)
            end
      | Request_ r =>
          if p_started p HTTP then run_in p (serve r) (fun _ p' => p') else p
      | HTTPAcceptFails e =>
          if p_started p HTTP
          then run_in p (ListenAndServe_returned (Some e)) (fun _ p' => p')
          else p
      | Datagram r =>
          if p_started p DNS then run_in p (dns_iter r (p_dns_buf p)) set_dns_buf else p
      | RawUnit r =>
          if p_started p ICMP then run_in p (icmp_iter r (p_icmp_buf p)) set_icmp_buf else p
      | Accept a =>
          if p_started p SMTP then run_in p (smtp_iter a) (fun _ p' => p') else p
      end
  end.

Fixpoint run (binds : BindResults) (sched : list Stimulus) (p : Process) : Process :=
  match sched with
  | [] => p
  | s :: rest => run binds rest (step binds s p)
  end.

(** [main]: the four goroutines are created, then the schedule runs. *)
Definition main (binds : BindResults) (sched : list Stimulus) (w : World) : Process :=
  run binds sched (main_init w).

(** ** Reading a trace *)

(** The events a computation adds to the trace of [w]. *)
Definition events_of {A} (m : M A) (w : World) : list Event :=
  skipn (List.length (w_trace w)) (w_trace (snd (m w))).

(** The world a computation leaves. *)
Definition after {A} (m : M A) (w : World) : World := snd (m w).

(** The datagrams listener [l] handed to [WriteTo], oldest first. *)
Fixpoint sent (l : ListenerId) (tr : list Event) : list (bytes * string) :=
  match tr with
  | [] => []
  | EvSendTo l' p a :: rest =>
      if ListenerId_eqb l l' then (p, a) :: sent l rest else sent l rest
  | _ :: rest => sent l rest
  end.

(** The units a list of [ReadFrom] results delivers, oldest first. *)
Fixpoint units (ins : list RecvResult) : list (bytes * string) :=
  match ins with
  | [] => []
  | RecvOk p a :: rest => (p, a) :: units rest
  | RecvErr _ :: rest => units rest
  end.

(** A unit of at most [cap] bytes (an error carries no unit). *)
Definition fits (cap : nat) (r : RecvResult) : Prop :=
  match r with
  | RecvOk p _ => List.length p <= cap
  | RecvErr _ => True
  end.

(** The length of the header of an IPv4 packet, as its first byte
    gives it. *)
Definition ip_header_len (pkt : bytes) : nat :=
  N.to_nat (N.shiftl (N.land (Byte.to_N (hd "000"%byte pkt)) 15) 2).

(** An IPv4 packet as the kernel delivers one: version 4, and a header
    of at least 20 bytes that is all there. *)
Definition ipv4_packet (pkt : bytes) : Prop :=
  N.shiftr (Byte.to_N (hd "000"%byte pkt)) 4 = 4%N /\
  20 <= ip_header_len pkt <= List.length pkt.

(** The ICMP message of a packet: what follows the header. *)
Definition icmp_message (pkt : bytes) : bytes := skipn (ip_header_len pkt) pkt.

(** A result of the raw socket that, if it is a unit, is an IPv4
    packet. *)
Definition raw_unit (r : RecvResult) : Prop :=
  match r with
  | RecvOk p _ => ipv4_packet p
  | RecvErr _ => True
  end.

(** The ICMP messages a list of results of the raw socket delivers,
    each with its sender, oldest first. *)
Fixpoint icmp_units (ins : list RecvResult) : list (bytes * string) :=
  match ins with
  | [] => []
  | RecvOk p a :: rest => (icmp_message p, a) :: icmp_units rest
  | RecvErr _ :: rest => icmp_units rest
  end.

Definition is_response_event (e : Event) : bool :=
  match e with
  | EvWriteHeader _ | EvWriteBody _ => true
  | _ => false
  end.

Definition is_stdout_event (e : Event) : bool :=
  match e with
  | EvStdout _ => true
  | _ => false
  end.

Definition is_close_event (e : Event) : bool :=
  match e with
  | EvFileClose _ => true
  | _ => false
  end.

Definition is_conn_read (e : Event) : bool :=
  match e with
  | EvConnRead _ => true
  | _ => false
  end.

Fixpoint conn_writes (tr : list Event) : list bytes :=
  match tr with
  | [] => []
  | EvConnWrite _ b :: rest => b :: conn_writes rest
  | _ :: rest => conn_writes rest
  end.

Fixpoint log_records (tr : list Event) : list string :=
  match tr with
  | [] => []
  | EvLog s :: rest => s :: log_records rest
  | _ :: rest => log_records rest
  end.

(** [sub] occurs in [s]. *)
Definition contains (sub s : string) : Prop :=
  exists a b, s = a ++ sub ++ b.


(** The path of the request, as it is written in the request URL, is
    in canonical form: cleaning it changes nothing. *)
Definition canonical (r : Request) : Prop :=
  cleanPath (EscapedPath (URL r)) = EscapedPath (URL r).


(** The request's body has no file under [file], or is not a multipart
    form at all. *)
Definition no_file_field (r : Request) : Prop :=
  match MultipartForm r with
  | ParseErr _ => True
  | Parsed f => form_files "file" (File f) = []
  end.

(** The request's body carries the file [fh] as the first one under
    [file], and it opens. *)
Definition file_field (r : Request) (fh : FileHeader) : Prop :=
  exists f rest,
    MultipartForm r = Parsed f /\
    form_files "file" (File f) = fh :: rest /\
    OpenErr fh = None.

(** Standard output accepts [n] more bytes. *)
Definition has_room (n : nat) (w : World) : Prop :=
  match w_room w with
  | None => True
  | Some k => n <= k
  end.

(** How many of [n] bytes standard output takes. *)
Definition accepted (n : nat) (w : World) : nat :=
  match w_room w with
  | None => n
  | Some k => Nat.min k n
  end.

(** The texts the handlers answer and log. *)
Definition root_body : bytes := bytes_of ("HTTP server is working!" ++ nl).
Definition upload_body : bytes := bytes_of ("File upload successful" ++ nl).
Definition root_record (r : Request) : string :=
  "HTTP Request: " ++ Method r ++ " " ++ URL_String (URL r)
  ++ " from " ++ RemoteAddr r ++ nl.

(** The upload of [fh] by [r] went through: answered 200 with the
    success text, the file's content on standard output exactly once,
    and the file closed at the end. *)
Definition upload_delivers (r : Request) (fh : FileHeader) (w : World) : Prop :=
  status (w_resp (after (serve r) w)) = 200%Z /\
  body (w_resp (after (serve r) w)) = upload_body /\
  w_stdout (after (serve r) w) = (w_stdout w ++ Content fh)%list /\
  exists pre,
    events_of (serve r) w = (pre ++ [EvFileClose (Filename fh)])%list /\
    existsb is_close_event pre = false.

(** ** Sample inputs *)

(** Every endpoint binds. *)
Definition ex_binds_ok : BindResults := fun _ => None.

(** Three bytes, an error, one byte, and a datagram that fills the
    buffer of the datagram listener to its last byte. *)
Definition ex_dns_ins : list RecvResult :=
  [RecvOk ["001"; "002"; "003"]%byte "192.0.2.7:5353";
   RecvErr "i/o timeout";
   RecvOk ["255"]%byte "192.0.2.9:53";
   RecvOk (repeat "097"%byte 512) "192.0.2.7:5353"].

(** An IPv4 header without options: version 4, five words. *)
Definition ex_ip_header : bytes := ("069"%byte :: repeat "000"%byte 19)%list.

(** An echo request of eight bytes, and one whose packet fills the
    buffer of the raw listener to its last byte: 1004 bytes after the
    header. *)
Definition ex_icmp_ins : list RecvResult :=
  [RecvOk (ex_ip_header
           ++ ["008"; "000"; "247"; "255"; "000"; "000"; "000"; "000"]%byte)%list
          "192.0.2.7";
   RecvOk (ex_ip_header ++ repeat "097"%byte 1004)%list "192.0.2.9"].

(** An ICMP message of 1010 bytes behind its header. *)
Definition ex_icmp_1010 : RecvResult :=
  RecvOk (ex_ip_header ++ repeat "097"%byte 1010)%list "192.0.2.7".

Definition ex_no_form : ParseResult :=
  ParseErr "request Content-Type isn't multipart/form-data".

Definition ex_get_root : Request :=
  mkRequest "GET" (mkURL "/" false "") "192.0.2.7:40112" ex_no_form.



Definition ex_get_space : Request :=
  mkRequest "GET" (mkURL "/a b" false "") "192.0.2.7:40118" ex_no_form.

Definition ex_get_upload : Request :=
  mkRequest "GET" (mkURL "/upload" false "") "192.0.2.7:40114" ex_no_form.

(** A form with a text field and no file. *)
Definition ex_post_nofile : Request :=
  mkRequest "POST" (mkURL "/upload" false "") "192.0.2.7:40115"
            (Parsed (mkForm [("note", ["hi"])] [])).

Definition ex_file : FileHeader :=
  mkFileHeader "a.txt" (bytes_of "hello") None.

Definition ex_post_file : Request :=
  mkRequest "POST" (mkURL "/upload" false "") "192.0.2.7:40116"
            (Parsed (mkForm [] [("file", [ex_file])])).

(** Standard output with room for two more bytes. *)
Definition ex_world_small : World := mkWorld [] fresh_response [] (Some 2).

(** The UDP endpoint does not bind; the other three do. *)
Definition ex_binds_dns_fails : BindResults :=
  fun l =>
    match l with
    | DNS => Some "listen udp :53: bind: permission denied"
    | _ => None
    end.

(** The three siblings start, then the DNS listener, then traffic
    arrives for each sibling. *)
Definition ex_sched : list Stimulus :=
  [Start HTTP; Start ICMP; Start SMTP; Start DNS;
   Request_ ex_get_root;
   RawUnit (RecvOk (ex_ip_header ++ ["008"; "000"]%byte)%list "192.0.2.7");
   Accept (AcceptOk (mkConn "192.0.2.7:2525" None))].

(** ** Further readings of a run *)

(** A unit cut to the first [cap] bytes. *)
Definition truncated (cap : nat) (u : bytes * string) : bytes * string :=
  (firstn cap (fst u), snd u).

(** A unit with [f] applied to its bytes. *)
Definition reply_to (f : bytes -> bytes) (u : bytes * string) : bytes * string :=
  (f (fst u), snd u).

(** What one turn of an echo loop shows of the result [r] of its
    [ReadFrom]: [reply] is what the turn sends back of a unit, and
    [rec_ok], [rec_err] are the records it logs. *)
Definition echo_turn (l : ListenerId) (reply : bytes -> bytes)
  (rec_ok : bytes -> string -> string) (rec_err : string -> string)
  (r : RecvResult) : list Event :=
  match r with
  | RecvErr e => [EvLog (rec_err e)]
  | RecvOk p a => [EvLog (rec_ok (reply p) a); EvSendTo l (reply p) a]
  end.

(** What the raw listener sends back of a packet: the part of the
    packet that the buffer of [cap] bytes held, without the header. *)
Definition icmp_reply (cap : nat) (pkt : bytes) : bytes :=
  skipn (ip_header_len pkt) (firstn cap pkt).

(** The message of a packet, cut to what a buffer of [cap] bytes has
    room for behind the header. *)
Definition icmp_truncated (cap : nat) (u : bytes * string) : bytes * string :=
  (firstn (cap - ip_header_len (fst u)) (icmp_message (fst u)), snd u).

Definition dns_rec_ok (p : bytes) (a : string) : string :=
  "DNS Request from " ++ a ++ ": " ++ fmt_hex p ++ nl.
Definition dns_rec_err (e : string) : string :=
  "Error reading from DNS: " ++ e ++ nl.
Definition icmp_rec_ok (p : bytes) (a : string) : string :=
  "ICMP Request from " ++ a ++ nl.
Definition icmp_rec_err (e : string) : string :=
  "Error reading ICMP: " ++ e ++ nl.

(** The connections a list of [Accept] results brings. *)
Fixpoint accepted_conns (ins : list AcceptResult) : list Conn :=
  match ins with
  | [] => []
  | AcceptOk c :: rest => c :: accepted_conns rest
  | AcceptErr _ :: rest => accepted_conns rest
  end.

(** The peers of the connections closed, oldest first. *)
Fixpoint closed_conns (tr : list Event) : list string :=
  match tr with
  | [] => []
  | EvConnClose p :: rest => p :: closed_conns rest
  | _ :: rest => closed_conns rest
  end.

(** What was written to which connection, oldest first. *)
Fixpoint written_conns (tr : list Event) : list (string * bytes) :=
  match tr with
  | [] => []
  | EvConnWrite p b :: rest => (p, b) :: written_conns rest
  | _ :: rest => written_conns rest
  end.

Definition smtp_greeting : bytes := bytes_of ("220 Simple SMTP Test Server" ++ nl).

(** The file a request makes the upload handler open, if any: the
    request is a POST of [/upload] whose form has a file under [file]
    that opens. *)
Definition upload_file (r : Request) : option FileHeader :=
  if (Path (URL r) =? "/upload") && (Method r =? "POST") then
    match MultipartForm r with
    | ParseErr _ => None
    | Parsed f =>
        match form_files "file" (File f) with
        | fh :: _ => match OpenErr fh with
                     | None => Some fh
                     | Some _ => None
                     end
        | [] => None
        end
    end
  else None.

(** The bytes a request sends towards standard output. *)
Definition uploaded (r : Request) : bytes :=
  match upload_file r with
  | Some fh => Content fh
  | None => []
  end.

Definition close_events (fo : option FileHeader) : list Event :=
  match fo with
  | Some fh => [EvFileClose (Filename fh)]
  | None => []
  end.

(** Events that are a log record or the parsing of a form. *)
Definition is_quiet_event (e : Event) : bool :=
  match e with
  | EvLog _ | EvParseForm => true
  | _ => false
  end.

(** *** Goroutines side by side *)

(** A goroutine that has been started: the statements it has still to
    run, the next one first. *)
Definition Goroutine : Type := list (M unit).

Fixpoint run_statements (g : Goroutine) : M unit :=
  match g with
  | [] => ret tt
  | s :: rest => s ;; run_statements rest
  end.

(** The statements of the function literal that [startSMTPServer]
    starts per connection, the deferred close last. *)
Definition smtp_conn_statements (c : Conn) : Goroutine :=
  [log_Printf ("SMTP Connection from " ++ Conn_RemoteAddr c ++ nl);
   (_ <- Conn_Write c (bytes_of ("220 Simple SMTP Test Server" ++ nl)) ;; ret tt);
   time_Sleep (10 * time_Second);
   Conn_Close c].

(** What the accept loop runs itself: the record of each failed
    [Accept]; an accepted connection is handed to a goroutine of its
    own. *)
Fixpoint accept_loop_statements (ins : list AcceptResult) : Goroutine :=
  match ins with
  | [] => []
  | AcceptErr e :: rest => smtp_iter (AcceptErr e) :: accept_loop_statements rest
  | AcceptOk _ :: rest => accept_loop_statements rest
  end.

(** The statement [s] returns, and what it does is to add the events
    [evs] to the trace. *)
Definition emits (s : M unit) (evs : list Event) : Prop :=
  forall w, s w = (Val tt, add_events w evs).

(** The scheduler: [pool_run gs w w'] when the goroutines [gs], each
    running its statements in their order and the scheduler choosing
    at every step whose turn it is, take the world from [w] to [w']
    and have no statement left. *)
Inductive pool_run : list Goroutine -> World -> World -> Prop :=
| pool_done gs w :
    Forall (fun g => g = []) gs -> pool_run gs w w
| pool_step pre s g post w w1 w' :
    s w = (Val tt, w1) ->
    pool_run (pre ++ g :: post) w1 w' ->
    pool_run (pre ++ (s :: g) :: post) w w'.

(** The goroutines of the greeting listener over the results [ins] of
    [Accept]: the loop, and one handler per accepted connection. *)
Definition smtp_pool (ins : list AcceptResult) : list Goroutine :=
  accept_loop_statements ins :: map smtp_conn_statements (accepted_conns ins).

(** The errors of the failed [Accept]s among [ins]. *)
Fixpoint accept_errors (ins : list AcceptResult) : list string :=
  match ins with
  | [] => []
  | AcceptErr e :: rest => e :: accept_errors rest
  | AcceptOk _ :: rest => accept_errors rest
  end.

(** The events of the statements of the accept loop and of one
    handler, statement by statement. *)
Definition accept_loop_events (ins : list AcceptResult) : list (list Event) :=
  map (fun e => [EvLog ("Failed to accept SMTP connection: " ++ e ++ nl)])
      (accept_errors ins).

Definition smtp_conn_events (c : Conn) : list (list Event) :=
  [[EvLog ("SMTP Connection from " ++ peer c ++ nl)];
   [EvConnWrite (peer c) smtp_greeting];
   [EvSleep 10000000000];
   [EvConnClose (peer c)]].

Definition smtp_pool_events (ins : list AcceptResult) : list (list (list Event)) :=
  accept_loop_events ins :: map smtp_conn_events (accepted_conns ins).

(** No schedule step calls [log.Fatal]: no listener is started whose
    endpoint does not bind, and [Accept] of the HTTP listener does not
    fail for good while the listener is in its loop ([http] tells
    whether it is at the beginning of the schedule). *)
Fixpoint fatal_free (binds : BindResults) (http : bool) (sched : list Stimulus) : bool :=
  match sched with
  | [] => true
  | Start l :: rest =>
      match binds l with
      | Some _ => false
      | None => fatal_free binds (match l with HTTP => true | _ => http end) rest
      end
  | HTTPAcceptFails _ :: rest => if http then false else fatal_free binds http rest
  | _ :: rest => fatal_free binds http rest
  end.

(** A unit of 600 bytes, an error, and a short unit. *)
Definition ex_long_ins : list RecvResult :=
  [RecvOk (repeat "097"%byte 600) "192.0.2.7:5353";
   RecvErr "i/o timeout";
   RecvOk ["098"]%byte "192.0.2.9:53"].

(** A message of 1100 bytes behind its header, an error, and a short
    message. *)
Definition ex_long_raw_ins : list RecvResult :=
  [RecvOk (ex_ip_header ++ repeat "097"%byte 1100)%list "192.0.2.7";
   RecvErr "i/o timeout";
   RecvOk (ex_ip_header ++ ["008"; "000"]%byte)%list "192.0.2.9"].

Definition ex_accepts : list AcceptResult :=
  [AcceptOk (mkConn "192.0.2.7:2525" None);
   AcceptErr "accept tcp [::]:25: too many open files";
   AcceptOk (mkConn "192.0.2.9:2526" (Some "write: broken pipe"))].

(** The events of a run over [ex_accepts] in which the scheduler lets
    the two handlers and the accept loop take turns: the second
    connection is greeted before the first, and closed before it. *)
Definition ex_interleaved : list Event :=
  [EvLog ("SMTP Connection from 192.0.2.7:2525" ++ nl);
   EvLog ("SMTP Connection from 192.0.2.9:2526" ++ nl);
   EvConnWrite "192.0.2.9:2526" smtp_greeting;
   EvLog ("Failed to accept SMTP connection: accept tcp [::]:25: too many open files" ++ nl);
   EvConnWrite "192.0.2.7:2525" smtp_greeting;
   EvSleep 10000000000;
   EvSleep 10000000000;
   EvConnClose "192.0.2.9:2526";
   EvConnClose "192.0.2.7:2525"].

(** Two uploads with a root request between them. *)
Definition ex_requests : list Request :=
  [ex_post_file; ex_get_root; ex_post_nofile; ex_post_file].

(** Every listener that is in its loop has bound its endpoint. *)
Definition started_are_bound (binds : BindResults) (p : Process) : Prop :=
  forall l, p_started p l = true -> binds l = None.

(** The results of [ReadFrom] that a schedule brings to the datagram
    listener while it is in its loop ([started] tells whether it is at
    the beginning of the schedule). *)
Fixpoint dns_delivered (started : bool) (sched : list Stimulus) : list RecvResult :=
  match sched with
  | [] => []
  | Start DNS :: rest => dns_delivered true rest
  | Datagram u :: rest =>
      if started then u :: dns_delivered started rest else dns_delivered started rest
  | _ :: rest => dns_delivered started rest
  end.

(** The same for the raw listener. *)
Fixpoint icmp_delivered (started : bool) (sched : list Stimulus) : list RecvResult :=
  match sched with
  | [] => []
  | Start ICMP :: rest => icmp_delivered true rest
  | RawUnit u :: rest =>
      if started then u :: icmp_delivered started rest else icmp_delivered started rest
  | _ :: rest => icmp_delivered started rest
  end.

(** Units for both echo listeners among the traffic of the other two. *)
Definition ex_mixed_sched : list Stimulus :=
  [Datagram (RecvOk ["001"]%byte "192.0.2.1:1");
   Start HTTP; Start DNS; Start SMTP;
   Datagram (RecvOk (repeat "097"%byte 600) "192.0.2.7:5353");
   Request_ ex_post_file;
   Start ICMP;
   Accept (AcceptOk (mkConn "192.0.2.7:2525" None));
   RawUnit (RecvOk (ex_ip_header ++ ["008"; "000"]%byte)%list "192.0.2.7");
   Datagram (RecvErr "i/o timeout");
   Request_ ex_get_upload;
   Datagram (RecvOk ["098"]%byte "192.0.2.9:53");
   RawUnit (RecvOk (ex_ip_header ++ repeat "098"%byte 1100)%list "192.0.2.9")].

(** * Properties *)

Unset Implicit Arguments.

(** ** Traces and records *)

Lemma add_events_nil w : add_events w [] = w.
Proof. destruct w; unfold add_events; simpl. now rewrite app_nil_r. Qed.

Lemma add_events_app w a b :
  add_events (add_events w a) b = add_events w (a ++ b).
Proof. unfold add_events; simpl. now rewrite app_assoc. Qed.

Lemma events_of_add {A} (m : M A) w o evs :
  m w = (o, add_events w evs) -> events_of m w = evs.
Proof.
  intros E. unfold events_of. rewrite E. simpl.
  rewrite skipn_app, Nat.sub_diag, skipn_all. reflexivity.
Qed.

Lemma ends_in_newline_app a b :
  b <> "" -> ends_in_newline (a ++ b) = ends_in_newline b.
Proof.
  intros Hb. induction a as [|c a IH]; simpl; [reflexivity|].
  rewrite IH. destruct (a ++ b) eqn:E; [|reflexivity].
  destruct a; simpl in E; [congruence | discriminate].
Qed.

Lemma ends_in_newline_nl a : ends_in_newline (a ++ nl) = true.
Proof. rewrite ends_in_newline_app; [reflexivity | discriminate]. Qed.

(** A message that ends in a newline is logged as it is. *)
Lemma log_Printf_nl s w :
  log_Printf (s ++ nl) w = (Val tt, add_events w [EvLog (s ++ nl)]).
Proof. unfold log_Printf, log_Output, log_line, emit. now rewrite ends_in_newline_nl. Qed.

Lemma log_Println_eq s w :
  log_Println s w = (Val tt, add_events w [EvLog (s ++ nl)]).
Proof. unfold log_Println. apply log_Printf_nl. Qed.

Lemma append_assoc (a b c : string) : (a ++ b) ++ c = a ++ b ++ c.
Proof. induction a; simpl; congruence. Qed.

Lemma sent_app l a b : sent l (a ++ b) = (sent l a ++ sent l b)%list.
Proof.
  induction a as [|e a IH]; simpl; [reflexivity|].
  destruct e; simpl; auto. destruct (ListenerId_eqb l l0); simpl; congruence.
Qed.

(** ** The receive buffer *)

Lemma ReadFrom_length r buf :
  List.length (fst (fst (fst (ReadFrom r buf)))) = List.length buf.
Proof.
  destruct r as [e|p a]; simpl; [reflexivity|].
  rewrite length_app, length_firstn, length_skipn. lia.
Qed.

(** What is read into a reused buffer is the front of the unit, as much
    as the buffer holds, whatever the buffer held before. *)
Lemma ReadFrom_front p a buf :
  exists buf',
    ReadFrom (RecvOk p a) buf
    = (buf', Nat.min (List.length p) (List.length buf), a, None) /\
    firstn (Nat.min (List.length p) (List.length buf)) buf' = firstn (List.length buf) p /\
    List.length buf' = List.length buf.
Proof.
  eexists. split; [reflexivity|]. split.
  - rewrite firstn_app, length_firstn.
    replace (Nat.min (List.length p) (List.length buf)
             - Nat.min (Nat.min (List.length p) (List.length buf)) (List.length p))
      with 0 by lia.
    rewrite firstn_O, app_nil_r, firstn_firstn, Nat.min_id.
    destruct (Nat.le_ge_cases (List.length p) (List.length buf)) as [H|H].
    + rewrite Nat.min_l by exact H. now rewrite !firstn_all2 by lia.
    + now rewrite Nat.min_r by exact H.
  - rewrite length_app, length_firstn, length_skipn. lia.
Qed.

Lemma ends_in_newline_app_r a b :
  ends_in_newline b = true -> ends_in_newline (a ++ b) = true.
Proof.
  intros H. rewrite ends_in_newline_app; [exact H|].
  intros ->. discriminate.
Qed.

(** Run the binds of a computation whose pieces are explicit. *)
Ltac go_steps := repeat progress (unfold bind, ret, emit; cbv beta iota).

Ltac ends_nl :=
  repeat (apply ends_in_newline_app_r); reflexivity.

Lemma log_Printf_ends s w :
  ends_in_newline s = true -> log_Printf s w = (Val tt, add_events w [EvLog s]).
Proof. intros H. unfold log_Printf, log_Output, log_line, emit. now rewrite H. Qed.

(** ** The header of a raw packet *)

Lemma ip_header_len_le pkt : ip_header_len pkt <= 60.
Proof.
  unfold ip_header_len.
  change 15%N with (N.ones 4). rewrite N.land_ones, N.shiftl_mul_pow2.
  assert (H : (Byte.to_N (hd "000"%byte pkt) mod 2 ^ 4 < 2 ^ 4)%N)
    by (apply N.mod_upper_bound; discriminate).
  change (2 ^ 4)%N with 16%N in *. change (2 ^ 2)%N with 4%N.
  generalize dependent (Byte.to_N (hd "000"%byte pkt) mod 16)%N. intros m H. lia.
Qed.

Lemma copy_bytes_length dst src :
  List.length src <= List.length dst ->
  List.length (copy_bytes dst src) = List.length dst.
Proof.
  intros H. unfold copy_bytes.
  rewrite length_app, length_firstn, length_skipn. lia.
Qed.

Lemma stripIPv4Header_length n b :
  List.length (snd (stripIPv4Header n b)) = List.length b.
Proof.
  unfold stripIPv4Header.
  destruct (List.length b <? 20)%nat; [reflexivity|].
  destruct (Nat.ltb_spec
              (N.to_nat (N.shiftl (N.land (Byte.to_N (hd "000"%byte b)) 15) 2)) 20);
    [reflexivity|].
  destruct (Nat.ltb_spec (List.length b)
              (N.to_nat (N.shiftl (N.land (Byte.to_N (hd "000"%byte b)) 15) 2)));
    [reflexivity|].
  cbn [orb].
  destruct (negb (N.shiftr (Byte.to_N (hd "000"%byte b)) 4 =? 4)%N); [reflexivity|].
  cbn [snd]. apply copy_bytes_length. rewrite length_skipn. lia.
Qed.

Lemma IPConn_ReadFrom_length r buf :
  List.length (fst (fst (fst (IPConn_ReadFrom r buf)))) = List.length buf.
Proof.
  unfold IPConn_ReadFrom.
  pose proof (ReadFrom_length r buf) as L.
  destruct (ReadFrom r buf) as [[[buf1 n] a] [e|]]; cbn [fst] in *; [exact L|].
  pose proof (stripIPv4Header_length n buf1) as S.
  destruct (stripIPv4Header n buf1) as [n' buf2]. cbn [fst snd] in *. congruence.
Qed.

(** The header of a packet is stripped: what the raw listener finds at
    the front of its buffer is the part of the packet that the buffer
    held, without the header, whatever the buffer held before. *)
Lemma IPConn_ReadFrom_packet pkt a buf :
  ipv4_packet pkt ->
  60 <= List.length buf ->
  exists buf' n,
    IPConn_ReadFrom (RecvOk pkt a) buf = (buf', n, a, None) /\
    firstn n buf' = icmp_reply (List.length buf) pkt /\
    List.length buf' = List.length buf.
Proof.
  intros (V & L20 & Lp) B.
  pose proof (ip_header_len_le pkt) as L60.
  pose proof (IPConn_ReadFrom_length (RecvOk pkt a) buf) as Len.
  unfold IPConn_ReadFrom, ReadFrom in *.
  assert (H0 : hd "000"%byte
                 (firstn (Nat.min (List.length pkt) (List.length buf)) pkt
                  ++ skipn (Nat.min (List.length pkt) (List.length buf)) buf)%list
               = hd "000"%byte pkt).
  { clear Len. destruct pkt as [|c rest]; [cbn [List.length] in Lp; lia|].
    destruct (Nat.min (List.length (c :: rest)) (List.length buf)) eqn:En;
      [cbn [List.length] in En; lia | reflexivity]. }
  set (n := Nat.min (List.length pkt) (List.length buf)) in *.
  set (buf1 := (firstn n pkt ++ skipn n buf)%list) in *.
  assert (L1 : List.length buf1 = List.length buf).
  { unfold buf1. rewrite length_app, length_firstn, length_skipn. lia. }
  unfold stripIPv4Header in *. rewrite H0, L1 in *.
  fold (ip_header_len pkt) in *.
  destruct (Nat.ltb_spec (List.length buf) 20); [lia|].
  destruct (Nat.ltb_spec (ip_header_len pkt) 20); [lia|].
  destruct (Nat.ltb_spec (List.length buf) (ip_header_len pkt)); [lia|].
  cbn [orb] in *. rewrite V in *. cbn [N.eqb Pos.eqb negb] in *.
  cbn [fst] in Len.
  eexists. eexists. split; [reflexivity|]. split; [|exact Len].
  unfold copy_bytes, icmp_reply.
  set (l := ip_header_len pkt) in *.
  rewrite (firstn_all2 (n := List.length buf1)) by (rewrite length_skipn; lia).
  rewrite firstn_app, length_skipn, L1.
  replace (n - l - (List.length buf - l)) with 0 by lia.
  rewrite firstn_O, app_nil_r.
  unfold buf1. rewrite skipn_app, length_firstn.
  replace (l - Nat.min n (List.length pkt)) with 0 by lia.
  rewrite skipn_O, firstn_app, length_skipn, length_firstn.
  replace (n - l - (Nat.min n (List.length pkt) - l)) with 0 by lia.
  rewrite firstn_O, app_nil_r.
  rewrite firstn_all2 by (rewrite length_skipn, length_firstn; lia).
  f_equal. unfold n.
  destruct (Nat.le_ge_cases (List.length pkt) (List.length buf)) as [H'|H'].
  - rewrite Nat.min_l by exact H'. now rewrite !firstn_all2 by lia.
  - now rewrite Nat.min_r by exact H'.
Qed.

(** A packet that fits the buffer comes back as its ICMP message. *)
Lemma icmp_reply_fits cap pkt :
  List.length pkt <= cap -> icmp_reply cap pkt = icmp_message pkt.
Proof. intros H. unfold icmp_reply, icmp_message. now rewrite firstn_all2. Qed.

(** ** One turn of an echo loop *)

Lemma dns_iter_err e buf w :
  dns_iter (RecvErr e) buf w
  = (Val buf, add_events w [EvLog ("Error reading from DNS: " ++ e ++ nl)]).
Proof.
  unfold dns_iter, ReadFrom, bind. cbv beta iota zeta.
  rewrite log_Printf_ends by ends_nl. reflexivity.
Qed.

Lemma icmp_iter_err e buf w :
  icmp_iter (RecvErr e) buf w
  = (Val buf, add_events w [EvLog ("Error reading ICMP: " ++ e ++ nl)]).
Proof.
  unfold icmp_iter, IPConn_ReadFrom, ReadFrom, bind. cbv beta iota zeta.
  rewrite log_Printf_ends by ends_nl. reflexivity.
Qed.

Lemma dns_iter_any p a buf w :
  exists buf',
    dns_iter (RecvOk p a) buf w
    = (Val buf', add_events w (echo_turn DNS (firstn (List.length buf)) dns_rec_ok dns_rec_err
                                         (RecvOk p a))) /\
    List.length buf' = List.length buf.
Proof.
  destruct (ReadFrom_front p a buf) as (buf' & E & F & L).
  exists buf'. split; [|exact L].
  unfold dns_iter. rewrite E, F. unfold bind, WriteTo, emit, ret.
  rewrite log_Printf_ends by ends_nl. now rewrite add_events_app.
Qed.

Lemma icmp_iter_packet p a buf w :
  ipv4_packet p ->
  60 <= List.length buf ->
  exists buf',
    icmp_iter (RecvOk p a) buf w
    = (Val buf', add_events w (echo_turn ICMP (icmp_reply (List.length buf))
                                         icmp_rec_ok icmp_rec_err (RecvOk p a))) /\
    List.length buf' = List.length buf.
Proof.
  intros P B.
  destruct (IPConn_ReadFrom_packet p a buf P B) as (buf' & n & E & F & L).
  exists buf'. split; [|exact L].
  unfold icmp_iter. rewrite E, F. unfold bind, WriteTo, emit, ret.
  rewrite log_Printf_ends by ends_nl. now rewrite add_events_app.
Qed.

Lemma make_bytes_length n : List.length (make_bytes n) = n.
Proof. apply repeat_length. Qed.

(** ** An echo loop over many units *)

Section EchoTrace.

Variable iter : RecvResult -> bytes -> M bytes.
Variable l : ListenerId.
Variable cap : nat.
Variable reply : bytes -> bytes.
Variable good : bytes -> Prop.
Variable rec_ok : bytes -> string -> string.
Variable rec_err : string -> string.

(** A good unit is logged and answered with [reply], and the buffer
    keeps its size. *)
Hypothesis iter_good : forall p a buf w,
  List.length buf = cap ->
  good p ->
  exists buf',
    iter (RecvOk p a) buf w
    = (Val buf', add_events w (echo_turn l reply rec_ok rec_err (RecvOk p a))) /\
    List.length buf' = cap.

(** A receive error is logged and leaves the buffer alone. *)
Hypothesis iter_error : forall e buf w,
  iter (RecvErr e) buf w = (Val buf, add_events w [EvLog (rec_err e)]).

(** The loop with its one buffer shows, turn after turn, what a loop
    with a fresh buffer per unit would show. *)
Lemma recv_loop_trace ins : forall buf w,
  List.length buf = cap ->
  Forall (fun r => match r with RecvOk p _ => good p | RecvErr _ => True end) ins ->
  exists buf',
    recv_loop iter ins buf w
    = (Val buf', add_events w (flat_map (echo_turn l reply rec_ok rec_err) ins)) /\
    List.length buf' = cap.
Proof.
  induction ins as [|r rest IH]; intros buf w Lb G.
  - exists buf. simpl. unfold ret. now rewrite add_events_nil.
  - pose proof (Forall_inv G) as Gr. pose proof (Forall_inv_tail G) as Grest.
    simpl recv_loop. unfold bind. destruct r as [e|p a].
    + rewrite iter_error.
      destruct (IH buf (add_events w [EvLog (rec_err e)]) Lb Grest) as (buf' & E & L).
      exists buf'. rewrite E, add_events_app. split; [reflexivity | exact L].
    + destruct (iter_good p a buf w Lb Gr) as (buf1 & E1 & L1). rewrite E1.
      destruct (IH buf1 (add_events w (echo_turn l reply rec_ok rec_err (RecvOk p a)))
                   L1 Grest)
        as (buf' & E & L).
      exists buf'. rewrite E, add_events_app. split; [reflexivity | exact L].
Qed.

End EchoTrace.

Lemma sent_echo_turns l reply rec_ok rec_err ins :
  sent l (flat_map (echo_turn l reply rec_ok rec_err) ins)
  = map (reply_to reply) (units ins).
Proof.
  induction ins as [|r rest IH]; [reflexivity|].
  cbn [flat_map]. rewrite sent_app, IH.
  destruct r as [e|p a]; [reflexivity|].
  cbn [echo_turn sent units map app]. destruct l; reflexivity.
Qed.

Lemma dns_iter_good p a buf w :
  List.length buf = 512 ->
  True ->
  exists buf',
    dns_iter (RecvOk p a) buf w
    = (Val buf', add_events w (echo_turn DNS (firstn 512) dns_rec_ok dns_rec_err
                                         (RecvOk p a))) /\
    List.length buf' = 512.
Proof.
  intros Lb _. destruct (dns_iter_any p a buf w) as (b & E & L).
  exists b. rewrite E, L, Lb. auto.
Qed.

Lemma icmp_iter_good p a buf w :
  List.length buf = 1024 ->
  ipv4_packet p ->
  exists buf',
    icmp_iter (RecvOk p a) buf w
    = (Val buf', add_events w (echo_turn ICMP (icmp_reply 1024) icmp_rec_ok icmp_rec_err
                                         (RecvOk p a))) /\
    List.length buf' = 1024.
Proof.
  intros Lb P. destruct (icmp_iter_packet p a buf w P) as (b & E & L); [lia|].
  exists b. rewrite E, L, Lb. auto.
Qed.

Lemma Forall_any_unit ins :
  Forall (fun r : RecvResult => match r with RecvOk _ _ => True | RecvErr _ => True end) ins.
Proof. induction ins as [|[|] ? IH]; constructor; auto. Qed.

Lemma startDNSServer_trace binds ins w :
  binds DNS = None ->
  exists buf',
    startDNSServer binds ins w
    = (Val buf',
       add_events w (EvLog ("DNS server is listening on port 53" ++ nl)
                     :: flat_map (echo_turn DNS (firstn 512) dns_rec_ok dns_rec_err) ins)).
Proof.
  intros B. unfold startDNSServer. rewrite B. unfold bind. rewrite log_Println_eq.
  destruct (recv_loop_trace dns_iter DNS 512 (firstn 512) (fun _ => True)
              dns_rec_ok dns_rec_err dns_iter_good dns_iter_err ins (make_bytes 512)
              (add_events w [EvLog ("DNS server is listening on port 53" ++ nl)])
              (make_bytes_length 512) (Forall_any_unit ins))
    as (buf' & E & _).
  exists buf'. rewrite E, add_events_app. reflexivity.
Qed.

Lemma startICMPServer_trace binds ins w :
  binds ICMP = None ->
  Forall raw_unit ins ->
  exists buf',
    startICMPServer binds ins w
    = (Val buf',
       add_events w (EvLog ("ICMP server is listening" ++ nl)
                     :: flat_map (echo_turn ICMP (icmp_reply 1024)
                                            icmp_rec_ok icmp_rec_err) ins)).
Proof.
  intros B G. unfold startICMPServer. rewrite B. unfold bind. rewrite log_Println_eq.
  destruct (recv_loop_trace icmp_iter ICMP 1024 (icmp_reply 1024) ipv4_packet
              icmp_rec_ok icmp_rec_err icmp_iter_good icmp_iter_err ins (make_bytes 1024)
              (add_events w [EvLog ("ICMP server is listening" ++ nl)])
              (make_bytes_length 1024) G)
    as (buf' & E & _).
  exists buf'. rewrite E, add_events_app. reflexivity.
Qed.

Lemma map_reply_fits (reply : bytes -> bytes) (P : RecvResult -> Prop) unit_of ins :
  (forall p a, P (RecvOk p a) -> reply p = unit_of p) ->
  Forall P ins ->
  map (reply_to reply) (units ins)
  = map (reply_to unit_of) (units ins).
Proof.
  intros H F. induction F as [|r rest Pr _ IH]; [reflexivity|].
  destruct r as [e|p a]; cbn [units map]; [exact IH|].
  unfold reply_to at 1 3. cbn [fst snd]. now rewrite (H p a Pr), IH.
Qed.

Lemma icmp_units_eq ins : icmp_units ins = map (reply_to icmp_message) (units ins).
Proof.
  induction ins as [|[e|p a] rest IH]; cbn [icmp_units units map]; [reflexivity|exact IH|].
  now rewrite IH.
Qed.

Lemma map_reply_id ins : map (reply_to (fun p => p)) ins = ins.
Proof.
  induction ins as [|[p a] rest IH]; [reflexivity|].
  cbn [map]. now rewrite IH.
Qed.

(** ** An echo loop never leaves on its own *)

Lemma dns_iter_returns r buf :
  exists b evs, forall w, dns_iter r buf w = (Val b, add_events w evs).
Proof.
  destruct r as [e|p a].
  - do 2 eexists. intros w. apply dns_iter_err.
  - do 2 eexists. intros w.
    unfold dns_iter, ReadFrom, bind, WriteTo, emit, ret. cbv beta iota zeta.
    rewrite log_Printf_ends by ends_nl. rewrite add_events_app. reflexivity.
Qed.

Lemma icmp_iter_returns r buf :
  exists b evs, forall w, icmp_iter r buf w = (Val b, add_events w evs).
Proof.
  destruct r as [e|p a].
  - do 2 eexists. intros w. apply icmp_iter_err.
  - unfold icmp_iter.
    destruct (IPConn_ReadFrom (RecvOk p a) buf) as [[[b n] ad] [e|]];
      do 2 eexists; intros w; unfold bind, WriteTo, emit, ret;
      rewrite log_Printf_ends by ends_nl; rewrite ?add_events_app; reflexivity.
Qed.

Section LoopReturns.

Variable iter : RecvResult -> bytes -> M bytes.

(** A turn returns, and what it adds to the trace does not depend on
    the world it runs in. *)
Hypothesis iter_returns : forall r buf,
  exists b evs, forall w, iter r buf w = (Val b, add_events w evs).

Lemma recv_loop_returns ins : forall buf,
  exists b evs, forall w, recv_loop iter ins buf w = (Val b, add_events w evs).
Proof.
  induction ins as [|r rest IH]; intros buf.
  - exists buf, []. intros w. simpl. unfold ret. now rewrite add_events_nil.
  - destruct (iter_returns r buf) as (b1 & evs1 & E1).
    destruct (IH b1) as (b & evs & E).
    exists b, (evs1 ++ evs)%list. intros w.
    simpl. unfold bind. now rewrite E1, E, add_events_app.
Qed.

Lemma recv_loop_frame ins buf w1 w2 :
  events_of (recv_loop iter ins buf) w1 = events_of (recv_loop iter ins buf) w2 /\
  fst (recv_loop iter ins buf w1) = fst (recv_loop iter ins buf w2).
Proof.
  destruct (recv_loop_returns ins buf) as (b & evs & E).
  rewrite (events_of_add _ _ _ _ (E w1)), (events_of_add _ _ _ _ (E w2)).
  now rewrite !E.
Qed.

End LoopReturns.

(** ** C2 *)

(** C2, as written, fails for the raw listener: a message of 1010
    bytes, within the 1024 of the claim, comes back cut to its first
    1004.  The buffer of 1024 bytes holds the packet from its header
    on, and the header takes 20 of them. *)
Lemma icmp_reply_cut_at_1004 :
  fits 1024 (RecvOk (repeat "097"%byte 1010) "192.0.2.7") /\
  raw_unit ex_icmp_1010 /\
  icmp_units [ex_icmp_1010] = [(repeat "097"%byte 1010, "192.0.2.7")] /\
  sent ICMP (events_of (startICMPServer ex_binds_ok [ex_icmp_1010]) world0)
  = [(repeat "097"%byte 1004, "192.0.2.7")].
Proof.
  split; [unfold fits; rewrite repeat_length; lia|].
  split; [vm_compute; repeat split; apply Nat.leb_le; reflexivity|].
  split; vm_compute; reflexivity.
Qed.

(** C2, amended.  Echo: every unit of at most 512 bytes that the
    datagram listener receives is handed back to its sender byte for
    byte, and so is every ICMP message that the raw listener receives
    in an IPv4 packet of at most 1024 bytes, header included (1004
    bytes of message behind a header without options).  Over any run of
    the loop the datagrams given to [WriteTo] are exactly the units
    received, each with its sender, in the order received, also when
    the buffer still holds bytes of an earlier, longer unit. *)
Theorem echo_reply_exact binds dns_ins icmp_ins w :
  binds DNS = None ->
  binds ICMP = None ->
  Forall (fits 512) dns_ins ->
  Forall (fits 1024) icmp_ins ->
  Forall raw_unit icmp_ins ->
  sent DNS (events_of (startDNSServer binds dns_ins) w) = units dns_ins /\
  sent ICMP (events_of (startICMPServer binds icmp_ins) w) = icmp_units icmp_ins.
Proof.
  intros Bd Bi Fd Fi Ri. split.
  - destruct (startDNSServer_trace binds dns_ins w Bd) as (b & E).
    rewrite (events_of_add _ _ _ _ E). cbn [sent].
    rewrite sent_echo_turns.
    rewrite (map_reply_fits (firstn 512) (fits 512) (fun p => p)), map_reply_id;
      [reflexivity | | exact Fd].
    intros p a F. apply firstn_all2. exact F.
  - destruct (startICMPServer_trace binds icmp_ins w Bi Ri) as (b & E).
    rewrite (events_of_add _ _ _ _ E). cbn [sent].
    rewrite sent_echo_turns, icmp_units_eq.
    apply (map_reply_fits (icmp_reply 1024) (fits 1024) icmp_message); [|exact Fi].
    intros p a F. apply icmp_reply_fits. exact F.
Qed.

Lemma echo_reply_exact_witness :
  sent DNS (events_of (startDNSServer ex_binds_ok ex_dns_ins) world0) = units ex_dns_ins /\
  sent ICMP (events_of (startICMPServer ex_binds_ok ex_icmp_ins) world0)
  = icmp_units ex_icmp_ins.
Proof.
  apply echo_reply_exact; try reflexivity.
  - repeat (apply Forall_cons; [unfold fits; simpl List.length; try exact I; lia|]).
    apply Forall_nil.
  - repeat (apply Forall_cons;
            [unfold fits, ex_ip_header;
             rewrite ?length_app; cbn [List.length]; rewrite ?repeat_length; lia|]).
    apply Forall_nil.
  - repeat (apply Forall_cons;
            [vm_compute; repeat split; apply Nat.leb_le; reflexivity|]).
    apply Forall_nil.
Defined.

(** The second packet of the sample fills the buffer: its message of
    1004 bytes comes back whole. *)
Example echo_at_the_bound :
  map (fun u => List.length (fst u))
      (sent ICMP (events_of (startICMPServer ex_binds_ok ex_icmp_ins) world0))
  = [8; 1004].
Proof. vm_compute. reflexivity. Qed.

(** The buffer is reused from turn to turn: a short unit after a longer
    one is still echoed alone. *)
Example echo_after_longer_unit :
  sent DNS (events_of (recv_loop dns_iter
                         [RecvOk ["a"; "b"; "c"; "d"]%byte "p"; RecvOk ["z"]%byte "q"]
                         (make_bytes 512)) world0)
  = [(["a"; "b"; "c"; "d"]%byte, "p"); (["z"]%byte, "q")].
Proof. vm_compute. reflexivity. Qed.

(** ** C8 *)

(** C8.  In the datagram listener and in the raw listener a receive
    error is logged and the loop goes on to its next turn: the loop run
    on an error followed by [rest] is the loop run on [rest], from the
    same buffer, after one log record; whatever arrives, the loop
    returns to [ReadFrom] and never ends the process; what the later
    units cause does not depend on the error before them; and the
    process that takes the error is as alive as before. *)
Theorem recv_error_logged_loop_continues e rest buf w binds p :
  (recv_loop dns_iter (RecvErr e :: rest) buf w
   = recv_loop dns_iter rest buf
       (add_events w [EvLog ("Error reading from DNS: " ++ e ++ nl)])) /\
  (recv_loop icmp_iter (RecvErr e :: rest) buf w
   = recv_loop icmp_iter rest buf
       (add_events w [EvLog ("Error reading ICMP: " ++ e ++ nl)])) /\
  (exists b, fst (recv_loop dns_iter (RecvErr e :: rest) buf w) = Val b) /\
  (exists b, fst (recv_loop icmp_iter (RecvErr e :: rest) buf w) = Val b) /\
  (events_of (recv_loop dns_iter rest buf)
     (add_events w [EvLog ("Error reading from DNS: " ++ e ++ nl)])
   = events_of (recv_loop dns_iter rest buf) w) /\
  (events_of (recv_loop icmp_iter rest buf)
     (add_events w [EvLog ("Error reading ICMP: " ++ e ++ nl)])
   = events_of (recv_loop icmp_iter rest buf) w) /\
  p_exit (step binds (Datagram (RecvErr e)) p) = p_exit p /\
  p_exit (step binds (RawUnit (RecvErr e)) p) = p_exit p /\
  (forall l, p_started (step binds (Datagram (RecvErr e)) p) l = p_started p l) /\
  (forall l, p_started (step binds (RawUnit (RecvErr e)) p) l = p_started p l).
Proof.
  repeat split.
  - simpl. unfold bind. now rewrite dns_iter_err.
  - simpl. unfold bind. now rewrite icmp_iter_err.
  - destruct (@recv_loop_returns dns_iter dns_iter_returns (RecvErr e :: rest) buf) as (b & evs & E).
    exists b. now rewrite E.
  - destruct (@recv_loop_returns icmp_iter icmp_iter_returns (RecvErr e :: rest) buf) as (b & evs & E).
    exists b. now rewrite E.
  - apply (@recv_loop_frame dns_iter dns_iter_returns).
  - apply (@recv_loop_frame icmp_iter icmp_iter_returns).
  - unfold step. destruct (p_exit p) eqn:X; [exact X|].
    destruct (p_started p DNS); [|exact X].
    unfold run_in. rewrite dns_iter_err. exact X.
  - unfold step. destruct (p_exit p) eqn:X; [exact X|].
    destruct (p_started p ICMP); [|exact X].
    unfold run_in. rewrite icmp_iter_err. exact X.
  - intros l. unfold step. destruct (p_exit p); [reflexivity|].
    destruct (p_started p DNS); [|reflexivity].
    unfold run_in. rewrite dns_iter_err. reflexivity.
  - intros l. unfold step. destruct (p_exit p); [reflexivity|].
    destruct (p_started p ICMP); [|reflexivity].
    unfold run_in. rewrite icmp_iter_err. reflexivity.
Qed.

(** ** C3 *)

(** C3.  For every accepted connection the greeting handler logs the
    peer, writes the one line [220 Simple SMTP Test Server], sleeps ten
    seconds and closes the connection, in that order and nothing else:
    the greeting is its only write, it never reads, and the close comes
    last whether or not the write returned an error. *)
Theorem smtp_greeting_then_close c w :
  smtp_iter (AcceptOk c) w
  = (Val tt,
     add_events w
       [EvLog ("SMTP Connection from " ++ peer c ++ nl);
        EvConnWrite (peer c) (bytes_of ("220 Simple SMTP Test Server" ++ nl));
        EvSleep 10000000000;
        EvConnClose (peer c)]) /\
  conn_writes (events_of (smtp_iter (AcceptOk c)) w)
  = [bytes_of ("220 Simple SMTP Test Server" ++ nl)] /\
  existsb is_conn_read (events_of (smtp_iter (AcceptOk c)) w) = false /\
  last (events_of (smtp_iter (AcceptOk c)) w) (EvLog "") = EvConnClose (peer c).
Proof.
  assert (E : smtp_iter (AcceptOk c) w
              = (Val tt,
                 add_events w
                   [EvLog ("SMTP Connection from " ++ peer c ++ nl);
                    EvConnWrite (peer c) (bytes_of ("220 Simple SMTP Test Server" ++ nl));
                    EvSleep 10000000000;
                    EvConnClose (peer c)])).
  { unfold smtp_iter, go, smtp_conn_handler, defer, bind, Conn_Write, Conn_Close,
      time_Sleep, Conn_RemoteAddr, emit, ret.
    rewrite log_Printf_ends by ends_nl. go_steps.
    rewrite !add_events_app. reflexivity. }
  split; [exact E|].
  rewrite (events_of_add _ _ _ _ E). repeat split.
Qed.

(** ** [io.Copy] into standard output *)

Lemma copy_buf_size_pos : 0 < copy_buf_size.
Proof. unfold copy_buf_size. lia. Qed.

Lemma firstn_add {A} a b (l : list A) :
  firstn (a + b) l = (firstn a l ++ firstn b (skipn a l))%list.
Proof.
  revert l. induction a as [|a IH]; intros l; [reflexivity|].
  destruct l as [|x l]; simpl.
  - now rewrite firstn_nil.
  - now rewrite IH.
Qed.

Lemma room_sub_0 (o : option nat) : option_map (fun k => k - 0) o = o.
Proof. destruct o; simpl; [now rewrite Nat.sub_0_r | reflexivity]. Qed.

Lemma chunk_then_rest {A} size j (src : list A) :
  (firstn size src ++ firstn j (skipn size src))%list
  = firstn (List.length (firstn size src) + j) src.
Proof.
  destruct (le_lt_dec (List.length src) size) as [H|H].
  - rewrite (firstn_all2 _ H), (skipn_all2 _ H), firstn_nil, app_nil_r.
    rewrite firstn_all2; [reflexivity | lia].
  - rewrite length_firstn, Nat.min_l by lia. now rewrite firstn_add.
Qed.

(** The copy moves to standard output as much of the source as the
    sink takes, in order, and reports an error exactly when that is not
    all of it; the turns allowed are never used up. *)
Lemma io_Copy_loop_spec fuel : forall src written w,
  List.length src < fuel ->
  exists evs,
    io_Copy_loop fuel src written w
    = (Val (written + accepted (List.length src) w,
            if (accepted (List.length src) w <? List.length src)%nat
            then Some "short write" else None),
       mkWorld (w_trace w ++ evs) (w_resp w)
               (w_stdout w ++ firstn (accepted (List.length src) w) src)%list
               (option_map (fun k => k - accepted (List.length src) w) (w_room w))) /\
    forallb is_stdout_event evs = true.
Proof.
  pose proof copy_buf_size_pos as Hpos.
  induction fuel as [|fuel IH]; intros src written w Hf; [lia|].
  cbn [io_Copy_loop].
  destruct (firstn copy_buf_size src) as [|c cs] eqn:Ec.
  - (* end of the source *)
    assert (src = []) as ->.
    { destruct src; [reflexivity|].
      destruct copy_buf_size; [lia | discriminate]. }
    exists []. split; [|reflexivity].
    unfold ret, accepted. destruct w as [tr rs so [k|]]; simpl;
      rewrite ?Nat.min_0_r, ?Nat.sub_0_r, ?Nat.add_0_r, ?app_nil_r; reflexivity.
  - (* a buffer-full [c :: cs] *)
    assert (Lc : List.length (c :: cs) = Nat.min copy_buf_size (List.length src))
      by (rewrite <- Ec; apply length_firstn).
    assert (Ls : List.length (skipn copy_buf_size src) = List.length src - copy_buf_size)
      by apply length_skipn.
    assert (Hc : 0 < List.length (c :: cs)) by (simpl; lia).
    pose proof (fun j => chunk_then_rest copy_buf_size j src) as CR. rewrite Ec in CR.
    destruct w as [tr rs so room]. unfold bind, Stdout_Write, accepted.
    cbn [w_room w_trace w_resp w_stdout].
    destruct room as [k|].
    + destruct (Nat.ltb_spec (Nat.min k (List.length (c :: cs))) (List.length (c :: cs)))
        as [Hk|Hk]; cbn [fst snd].
      * (* the sink is full within this buffer *)
        exists [EvStdout (firstn (Nat.min k (List.length (c :: cs))) (c :: cs))].
        split; [|reflexivity]. unfold ret.
        assert (Nat.min k (List.length (c :: cs)) = k) as -> by lia.
        assert (Nat.min k (List.length src) = k) as -> by lia.
        assert ((k <? List.length src)%nat = true) as -> by (apply Nat.ltb_lt; lia).
        rewrite <- Ec, firstn_firstn.
        assert (Nat.min k copy_buf_size = k) as -> by lia.
        reflexivity.
      * (* the buffer went through: next turn *)
        assert (Nat.min k (List.length (c :: cs)) = List.length (c :: cs)) as -> by lia.
        rewrite firstn_all.
        destruct (IH (skipn copy_buf_size src) (written + List.length (c :: cs))
                     (mkWorld (tr ++ [EvStdout (c :: cs)]) rs (so ++ c :: cs)%list
                              (option_map (fun k0 => k0 - List.length (c :: cs)) (Some k))))
          as (evs & E & F); [lia|].
        exists (EvStdout (c :: cs) :: evs). split; [|exact F].
        rewrite E. unfold accepted. cbn [w_room w_trace w_resp w_stdout option_map].
        rewrite Ls.
        set (j := Nat.min (k - List.length (c :: cs)) (List.length src - copy_buf_size)).
        assert (Hj : List.length (c :: cs) + j = Nat.min k (List.length src)) by (unfold j; lia).
        rewrite <- Hj, <- CR, <- !app_assoc.
        assert (((j <? List.length src - copy_buf_size) = (List.length (c :: cs) + j <? List.length src))%nat) as ->.
        { destruct (Nat.ltb_spec j (List.length src - copy_buf_size));
          destruct (Nat.ltb_spec (List.length (c :: cs) + j) (List.length src)); auto; lia. }
        rewrite <- Nat.add_assoc, <- Nat.sub_add_distr. reflexivity.
    + (* a sink that never fails *)
      rewrite Nat.ltb_irrefl, firstn_all. cbn [fst snd option_map].
      destruct (IH (skipn copy_buf_size src) (written + List.length (c :: cs))
                   (mkWorld (tr ++ [EvStdout (c :: cs)]) rs (so ++ c :: cs)%list None))
        as (evs & E & F); [lia|].
      exists (EvStdout (c :: cs) :: evs). split; [|exact F].
      rewrite E. unfold accepted. cbn [w_room w_trace w_resp w_stdout option_map].
      rewrite !Nat.ltb_irrefl, !firstn_all, <- !app_assoc.
      assert (Hs : ((c :: cs) ++ skipn copy_buf_size src)%list = src)
        by (rewrite <- Ec; apply firstn_skipn).
      rewrite Hs.
      replace (written + List.length (c :: cs) + List.length (skipn copy_buf_size src))
        with (written + List.length src) by lia.
      reflexivity.
Qed.

Lemma io_Copy_Stdout_spec src w :
  exists evs,
    io_Copy_Stdout src w
    = (Val (accepted (List.length src) w,
            if (accepted (List.length src) w <? List.length src)%nat
            then Some "short write" else None),
       mkWorld (w_trace w ++ evs) (w_resp w)
               (w_stdout w ++ firstn (accepted (List.length src) w) src)%list
               (option_map (fun k => k - accepted (List.length src) w) (w_room w))) /\
    forallb is_stdout_event evs = true.
Proof.
  unfold io_Copy_Stdout.
  destruct (@io_Copy_loop_spec (S (List.length src)) src 0 w) as (evs & E & F); [lia|].
  exists evs. split; [exact E | exact F].
Qed.

(** ** Paths: escaping and cleaning *)

Lemma unhex_upperhex c :
  ishex (upperhex (N.shiftr (N_of_ascii c) 4)) = true /\
  ishex (upperhex (N.land (N_of_ascii c) 15)) = true /\
  ascii_of_N (N.lor (N.shiftl (unhex (upperhex (N.shiftr (N_of_ascii c) 4))) 4)
                    (unhex (upperhex (N.land (N_of_ascii c) 15)))) = c.
Proof.
  destruct c as [[] [] [] [] [] [] [] []]; vm_compute; repeat split.
Qed.

Lemma shouldEscape_percent c : shouldEscape c = false -> Ascii.eqb c "%" = false.
Proof.
  destruct (Ascii.eqb_spec c "%"%char) as [->|]; [vm_compute; discriminate | reflexivity].
Qed.

(** What [escape] writes, [unescape] reads back. *)
Lemma unescape_escape s : unescape (escape s) = Some s.
Proof.
  induction s as [|c r IH]; [reflexivity|].
  cbn [escape]. destruct (shouldEscape c) eqn:E.
  - destruct (unhex_upperhex c) as (H1 & H2 & H3).
    cbn [unescape]. change (Ascii.eqb "%" "%") with true. cbv beta iota.
    rewrite H1, H2, H3, IH. reflexivity.
  - cbn [unescape]. rewrite (shouldEscape_percent _ E), IH. reflexivity.
Qed.

Lemma pathUnescape_escape s : pathUnescape (escape s) = s.
Proof. unfold pathUnescape. now rewrite unescape_escape. Qed.

Lemma cut_slash_whole s : snd (cut_slash s) = "" -> fst (cut_slash s) = s.
Proof.
  induction s as [|c r IH]; [reflexivity|].
  cbn [cut_slash]. destruct (Ascii.eqb c "/"); [discriminate|].
  destruct (cut_slash r) as [a b]. cbn [fst snd] in *. intros H. now rewrite (IH H).
Qed.

Lemma cut_slash_app_slash s : snd (cut_slash (s ++ "/")) <> "".
Proof.
  induction s as [|c r IH]; [discriminate|].
  cbn [append cut_slash]. destruct (Ascii.eqb c "/"); [discriminate|].
  destruct (cut_slash (r ++ "/")) as [a b]. exact IH.
Qed.

Lemma count_slash_app a b : count_slash (a ++ b) = count_slash a + count_slash b.
Proof.
  induction a as [|c r IH]; [reflexivity|].
  cbn [append count_slash]. destruct (Ascii.eqb c "/"); rewrite IH; reflexivity.
Qed.

Lemma join_slash_rooted els :
  els <> [] -> exists q, join_slash els = String "/" q.
Proof. destruct els as [|e rest]; [congruence|]. intros _. cbn. eauto. Qed.

Lemma path_Clean_rooted p : exists q, path_Clean p = String "/" q.
Proof.
  unfold path_Clean. destruct (rev (clean_elems [] (split_slash p))) as [|e rest].
  - eauto.
  - apply join_slash_rooted. discriminate.
Qed.

(** A cleaned path is rooted. *)
Lemma cleanPath_rooted p : exists q, cleanPath p = String "/" q.
Proof.
  unfold cleanPath. destruct (p =? ""); [eauto|].
  destruct (path_Clean_rooted (if prefix "/" p then p else "/" ++ p)) as (q & E).
  rewrite E.
  destruct (ends_in_slash (if prefix "/" p then p else "/" ++ p)
            && negb (String "/" q =? "/")); cbn; eauto.
Qed.

(** ** The routes of the default mux *)

Lemma mux_match_default path :
  mux_match DefaultServeMux path
  = if routes_to_upload path then Some (upload_pattern, uploadHandler)
    else if path =? "" then None
    else Some (root_pattern, rootHandler).
Proof.
  unfold DefaultServeMux, mux_match, routes_to_upload.
  change (pattern_matches (segments root_pattern) (multi root_pattern) path)
    with (negb (path =? "")).
  destruct (pattern_matches (segments upload_pattern) (multi upload_pattern) path) eqn:U.
  - destruct (negb (path =? "")); reflexivity.
  - destruct (path =? ""); reflexivity.
Qed.

(** Only the escaped form of [/upload] is a rooted path that the
    pattern [/upload] takes. *)
Lemma routes_to_upload_escape P q :
  escape P = String "/" q ->
  routes_to_upload (escape P) = true ->
  P = "/upload".
Proof.
  intros R U. destruct P as [|c P']; [discriminate|].
  cbn [escape] in *. destruct (shouldEscape c) eqn:E; [discriminate|].
  injection R as -> <-.
  unfold routes_to_upload, upload_pattern in U. cbn [segments multi pattern_matches] in U.
  change (String "/" (escape P') =? "") with false in U. cbv beta iota in U.
  unfold firstSegment in U.
  destruct (String "/" (escape P') =? "/") eqn:S.
  - cbn in U. discriminate.
  - destruct (cut_slash (escape P')) as [seg rest] eqn:C.
    apply andb_prop in U. destruct U as [U1 U2].
    apply String.eqb_eq in U1, U2.
    assert (W := cut_slash_whole (escape P')). rewrite C in W. cbn [fst snd] in W.
    rewrite (W U2), pathUnescape_escape in U1. now subst.
Qed.

(** A path that ends in a slash is not [/upload]. *)
Lemma routes_to_upload_slash q : routes_to_upload (String "/" q ++ "/") = false.
Proof.
  unfold routes_to_upload, upload_pattern. cbn [segments multi append pattern_matches].
  change (String "/" (q ++ "/") =? "") with false. cbv beta iota.
  unfold firstSegment.
  destruct (String "/" (q ++ "/") =? "/") eqn:S; [reflexivity|].
  pose proof (cut_slash_app_slash q) as N.
  destruct (cut_slash (q ++ "/")) as [seg rest]. cbn [snd] in N.
  destruct (String.eqb_spec rest "") as [->|_]; [congruence|].
  apply andb_false_r.
Qed.

(** On a rooted path the mux never redirects to a path with a slash
    added. *)
Lemma matchOrRedirect_rooted q u :
  matchOrRedirect DefaultServeMux (String "/" q) u
  = (mux_match DefaultServeMux (String "/" q), None).
Proof.
  unfold matchOrRedirect.
  destruct (negb (exactMatch (mux_match DefaultServeMux (String "/" q)) (String "/" q))
            && negb (ends_in_slash (String "/" q))); [|reflexivity].
  rewrite (mux_match_default (String "/" q ++ "/")), routes_to_upload_slash.
  change (String "/" q ++ "/" =? "") with false. cbv beta iota.
  unfold exactMatch, root_pattern. cbn [multi segments negb List.length].
  rewrite count_slash_app. cbn [count_slash]. change (Ascii.eqb "/" "/") with true.
  cbv beta iota.
  destruct (negb (String "/" q ++ "/" =? "") && negb (ends_in_slash (String "/" q ++ "/")));
    [reflexivity|].
  destruct (Nat.eqb_spec 1 (S (count_slash q) + 1)); [lia | reflexivity].
Qed.

(** What the mux finds for any path: one of the two handlers, or a
    redirect; some pattern always takes the request. *)
Lemma matchOrRedirect_default path u :
  (matchOrRedirect DefaultServeMux path u = (Some (upload_pattern, uploadHandler), None) /\
   routes_to_upload path = true) \/
  matchOrRedirect DefaultServeMux path u = (Some (root_pattern, rootHandler), None) \/
  (exists u', matchOrRedirect DefaultServeMux path u = (None, Some u')).
Proof.
  destruct path as [|c q].
  - right; right. eexists. reflexivity.
  - unfold matchOrRedirect. rewrite (mux_match_default (String c q)).
    destruct (routes_to_upload (String c q)) eqn:U.
    + left. split; reflexivity.
    + change (String c q =? "") with false. cbv beta iota.
      destruct (negb (exactMatch (Some (root_pattern, rootHandler)) (String c q))
                && negb (ends_in_slash (String c q))); [|right; left; reflexivity].
      destruct (exactMatch (mux_match DefaultServeMux (String c q ++ "/"))
                           (String c q ++ "/"));
        [right; right; eexists; reflexivity | right; left; reflexivity].
Qed.

(** A request for [/upload], with any method, goes to the upload
    handler. *)
Lemma findHandler_upload r :
  Path (URL r) = "/upload" ->
  RequestURI_is_star r = false /\ findHandler DefaultServeMux r = uploadHandler.
Proof.
  intros U. unfold RequestURI_is_star, findHandler, EscapedPath. rewrite U.
  split; [reflexivity|].
  change ("/upload" =? "*") with false. cbv beta iota.
  change (escape "/upload") with "/upload".
  change (cleanPath "/upload") with "/upload".
  rewrite matchOrRedirect_rooted, mux_match_default.
  change (routes_to_upload "/upload") with true. cbv beta iota.
  change ("/upload" =? "/upload") with true. cbn [negb].
  destruct (Method r =? "CONNECT"); reflexivity.
Qed.

Lemma canonical_rooted r :
  canonical r ->
  exists q, EscapedPath (URL r) = String "/" q /\ escape (Path (URL r)) = String "/" q /\
            RequestURI_is_star r = false.
Proof.
  unfold canonical, RequestURI_is_star, EscapedPath. intros C.
  destruct (cleanPath_rooted (if Path (URL r) =? "*" then "*" else escape (Path (URL r))))
    as (q & E).
  rewrite C in E. exists q.
  destruct (Path (URL r) =? "*"); [discriminate | auto].
Qed.

(** A request whose path is in canonical form and is not [/upload]
    goes to the root handler. *)
Lemma findHandler_root r :
  canonical r -> Path (URL r) <> "/upload" ->
  RequestURI_is_star r = false /\ findHandler DefaultServeMux r = rootHandler.
Proof.
  intros C N. destruct (canonical_rooted r C) as (q & E & E' & S).
  split; [exact S|].
  unfold findHandler. unfold canonical in C. rewrite C, E.
  rewrite matchOrRedirect_rooted, mux_match_default.
  destruct (routes_to_upload (String "/" q)) eqn:U.
  - exfalso. apply N. apply (routes_to_upload_escape _ q E'). now rewrite E'.
  - change (String "/" q =? "") with false. cbv beta iota.
    rewrite String.eqb_refl. cbn [negb].
    destruct (Method r =? "CONNECT"); reflexivity.
Qed.

(** Any other request: a handler of the two, or a redirect; the upload
    handler only for a CONNECT. *)
Lemma findHandler_cases r :
  Path (URL r) <> "/upload" ->
  (findHandler DefaultServeMux r = uploadHandler /\ Method r = "CONNECT") \/
  findHandler DefaultServeMux r = rootHandler \/
  (exists url, findHandler DefaultServeMux r
               = RedirectHandler url http_StatusTemporaryRedirect).
Proof.
  intros N. unfold findHandler.
  destruct (String.eqb_spec (Method r) "CONNECT") as [C|NC].
  - destruct (matchOrRedirect_default (EscapedPath (URL r)) (URL r))
      as [(E & _)|[E|(u' & E)]]; rewrite E; eauto.
  - destruct (matchOrRedirect_default (cleanPath (EscapedPath (URL r))) (URL r))
      as [(E & U)|[E|(u' & E)]]; rewrite E; eauto.
    + destruct (String.eqb_spec (cleanPath (EscapedPath (URL r))) (EscapedPath (URL r)))
        as [K|_]; cbn [negb]; [|eauto].
      exfalso. apply N.
      destruct (canonical_rooted r K) as (q & E1 & E2 & _).
      rewrite K, E1, <- E2 in U. exact (routes_to_upload_escape _ q E2 U).
    + destruct (negb (cleanPath (EscapedPath (URL r)) =? EscapedPath (URL r))); eauto.
Qed.

(** ** The handlers *)

Lemma events_of_trace {A} (m : M A) w evs :
  w_trace (snd (m w)) = (w_trace w ++ evs)%list -> events_of m w = evs.
Proof.
  intros E. unfold events_of. rewrite E.
  rewrite skipn_app, Nat.sub_diag, skipn_all. reflexivity.
Qed.

Lemma rootHandler_run r w :
  rootHandler r (with_resp w fresh_response)
  = (Val tt,
     add_events (with_resp w (mkResponse true 200 root_body))
       [EvLog (root_record r); EvWriteHeader 200; EvWriteBody root_body]).
Proof.
  unfold rootHandler, bind. rewrite log_Printf_ends by ends_nl.
  unfold Write, WriteHeader, bind. cbn [w_resp add_events with_resp wroteHeader fresh_response].
  unfold add_events, with_resp. cbn [w_trace w_resp w_stdout w_room wroteHeader status body].
  rewrite <- !app_assoc. reflexivity.
Qed.

Lemma http_Error_fresh msg code w evs :
  http_Error msg code (add_events (with_resp w fresh_response) evs)
  = (Val tt,
     add_events (with_resp w (mkResponse true code (bytes_of (msg ++ nl))))
       (evs ++ [EvWriteHeader code; EvWriteBody (bytes_of (msg ++ nl))])).
Proof.
  unfold http_Error, Write, WriteHeader, bind.
  cbn [w_resp add_events with_resp wroteHeader fresh_response].
  unfold add_events, with_resp. cbn [w_trace w_resp w_stdout w_room wroteHeader status body].
  rewrite <- !app_assoc. reflexivity.
Qed.

Lemma upload_not_post r w :
  Method r <> "POST" ->
  uploadHandler r (with_resp w fresh_response)
  = (Val tt,
     add_events (with_resp w (mkResponse true 405 (bytes_of ("Invalid method" ++ nl))))
       [EvWriteHeader 405; EvWriteBody (bytes_of ("Invalid method" ++ nl))]).
Proof.
  intros N. unfold uploadHandler, http_MethodPost.
  destruct (String.eqb_spec (Method r) "POST") as [E|_]; [congruence|].
  cbn [negb]. rewrite <- (add_events_nil (with_resp w fresh_response)).
  apply http_Error_fresh.
Qed.

Lemma FormFile_no_file r w :
  no_file_field r ->
  exists e, FormFile r "file" w = (Val (inl e), add_events w [EvParseForm]).
Proof.
  unfold no_file_field, FormFile, bind, emit, ret. intros H.
  destruct (MultipartForm r) as [e|f]; [eauto|].
  rewrite H. eauto.
Qed.

Lemma FormFile_file r fh w :
  file_field r fh ->
  FormFile r "file" w = (Val (inr fh), add_events w [EvParseForm]).
Proof.
  intros (f & rest & E & F & O). unfold FormFile, bind, emit, ret.
  now rewrite E, F, O.
Qed.

(** [FormFile] fails, or there is a file field. *)
Lemma FormFile_cases r w :
  (exists e, FormFile r "file" w = (Val (inl e), add_events w [EvParseForm])) \/
  (exists fh, file_field r fh).
Proof.
  unfold FormFile, file_field, bind, emit, ret.
  destruct (MultipartForm r) as [e|f] eqn:E; [eauto|].
  destruct (form_files "file" (File f)) as [|fh rest] eqn:F; [eauto|].
  destruct (OpenErr fh) eqn:O; [eauto|].
  right. exists fh, f, rest. auto.
Qed.

Lemma upload_FormFile_fails r w e :
  Method r = "POST" ->
  FormFile r "file" (with_resp w fresh_response)
  = (Val (inl e), add_events (with_resp w fresh_response) [EvParseForm]) ->
  uploadHandler r (with_resp w fresh_response)
  = (Val tt,
     add_events (with_resp w (mkResponse true 400 (bytes_of ("Failed to get file" ++ nl))))
       [EvParseForm; EvWriteHeader 400; EvWriteBody (bytes_of ("Failed to get file" ++ nl))]).
Proof.
  intros P E. unfold uploadHandler, http_MethodPost.
  destruct (String.eqb_spec (Method r) "POST") as [_|N]; [|congruence].
  cbn [negb]. unfold bind. rewrite E. apply http_Error_fresh.
Qed.

Lemma upload_file_run r fh w :
  Method r = "POST" ->
  file_field r fh ->
  exists evs,
    forallb is_stdout_event evs = true /\
    uploadHandler r (with_resp w fresh_response)
    = (Val tt,
       mkWorld (w_trace w ++ [EvParseForm; EvLog ("File uploaded successfully" ++ nl)]
                  ++ evs
                  ++ [EvWriteHeader 200; EvWriteBody upload_body;
                      EvFileClose (Filename fh)])
               (mkResponse true 200 upload_body)
               (w_stdout w ++ firstn (accepted (List.length (Content fh)) w) (Content fh))%list
               (option_map (fun k => k - accepted (List.length (Content fh)) w) (w_room w))).
Proof.
  intros P FF. unfold uploadHandler, http_MethodPost.
  destruct (String.eqb_spec (Method r) "POST") as [_|N]; [|congruence].
  cbn [negb]. unfold bind at 1. rewrite (FormFile_file _ _ _ FF).
  unfold defer, bind at 1 2. rewrite log_Println_eq.
  destruct (io_Copy_Stdout_spec (Content fh)
              (add_events (add_events (with_resp w fresh_response) [EvParseForm])
                          [EvLog ("File uploaded successfully" ++ nl)]))
    as (evs & E & F).
  exists evs. split; [exact F|].
  unfold bind at 1. rewrite E.
  unfold Write, WriteHeader, File_Close, bind, emit, ret.
  unfold accepted, add_events, with_resp.
  cbn [w_trace w_resp w_stdout w_room wroteHeader status body fresh_response].
  rewrite <- !app_assoc. reflexivity.
Qed.

(** The upload handler always returns, with a status written. *)
Lemma uploadHandler_wrote r w :
  exists w1,
    uploadHandler r (with_resp w fresh_response) = (Val tt, w1) /\
    wroteHeader (w_resp w1) = true.
Proof.
  destruct (string_dec (Method r) "POST") as [P|N].
  - destruct (FormFile_cases r (with_resp w fresh_response)) as [(e & E)|(fh & FF)].
    + eexists. split; [exact (upload_FormFile_fails _ _ _ P E) | reflexivity].
    + destruct (upload_file_run _ _ w P FF) as (evs & _ & E).
      eexists. split; [exact E | reflexivity].
  - eexists. split; [exact (upload_not_post _ _ N) | reflexivity].
Qed.

(** ** Serving one request *)

(** A handler that wrote its status leaves nothing to finish. *)
Lemma serve_handler r h w w1 :
  RequestURI_is_star r = false ->
  findHandler DefaultServeMux r = h ->
  h r (with_resp w fresh_response) = (Val tt, w1) ->
  wroteHeader (w_resp w1) = true ->
  serve r w = (Val tt, w1).
Proof.
  intros S F E W.
  unfold serve, serverHandler_ServeHTTP, ServeMux_ServeHTTP, bind.
  rewrite S. cbn [andb]. rewrite F, E. unfold finishRequest. now rewrite W.
Qed.

Lemma serve_root r w :
  canonical r -> Path (URL r) <> "/upload" ->
  serve r w = rootHandler r (with_resp w fresh_response).
Proof.
  intros C N. destruct (findHandler_root r C N) as (S & F).
  rewrite rootHandler_run.
  apply (serve_handler r rootHandler w _ S F (rootHandler_run r w)). reflexivity.
Qed.

Lemma serve_upload r w :
  Path (URL r) = "/upload" ->
  serve r w = uploadHandler r (with_resp w fresh_response).
Proof.
  intros U. destruct (findHandler_upload r U) as (S & F).
  destruct (uploadHandler_wrote r w) as (w1 & E & W).
  rewrite E. exact (serve_handler r uploadHandler w w1 S F E W).
Qed.

(** What a redirect writes: the status, and a body for a GET alone. *)
Lemma http_Redirect_fresh r url code text w :
  http_Redirect r url code text (with_resp w fresh_response)
  = (Val tt,
     add_events
       (with_resp w (mkResponse true code
                       (if Method r =? "GET"
                        then Redirect_body (Redirect_target url) text else [])))
       (EvWriteHeader code
        :: if Method r =? "GET"
           then [EvWriteBody (Redirect_body (Redirect_target url) text)] else [])).
Proof.
  unfold http_Redirect.
  generalize (Redirect_body (Redirect_target url) text). intros bd.
  unfold bind, Write, WriteHeader, bind, ret.
  cbn [w_resp add_events with_resp wroteHeader fresh_response].
  destruct (Method r =? "GET").
  - unfold add_events, with_resp.
    cbn [w_trace w_resp w_stdout w_room wroteHeader status body app].
    rewrite <- !app_assoc. reflexivity.
  - reflexivity.
Qed.

Lemma log_records_app a b :
  log_records (a ++ b) = (log_records a ++ log_records b)%list.
Proof.
  induction a as [|e a IH]; simpl; [reflexivity|].
  destruct e; simpl; congruence.
Qed.

Lemma log_records_stdout evs :
  forallb is_stdout_event evs = true -> log_records evs = [].
Proof.
  induction evs as [|e evs IH]; simpl; [reflexivity|].
  destruct e; simpl; try discriminate. exact IH.
Qed.

Lemma existsb_close_stdout evs :
  forallb is_stdout_event evs = true -> existsb is_close_event evs = false.
Proof.
  induction evs as [|e evs IH]; simpl; [reflexivity|].
  destruct e; simpl; try discriminate. exact IH.
Qed.



(** ** Every way a request is served *)

Lemma accepted_0 w : accepted 0 w = 0.
Proof. unfold accepted. destruct (w_room w); [apply Nat.min_0_r | reflexivity]. Qed.

(** A world whose standard output was left alone. *)
Lemma quiet_world w R evs :
  add_events (with_resp w R) evs
  = mkWorld (w_trace w ++ evs) R
            (w_stdout w ++ firstn (accepted 0 w) [])%list
            (option_map (fun k => k - accepted 0 w) (w_room w)).
Proof.
  rewrite accepted_0, room_sub_0. cbn [firstn]. rewrite app_nil_r. reflexivity.
Qed.

Lemma upload_file_spec r fh :
  upload_file r = Some fh <->
  Path (URL r) = "/upload" /\ Method r = "POST" /\ file_field r fh.
Proof.
  unfold upload_file, file_field. split.
  - destruct (String.eqb_spec (Path (URL r)) "/upload") as [U|]; [|discriminate].
    destruct (String.eqb_spec (Method r) "POST") as [P|]; [|discriminate].
    cbn [andb].
    destruct (MultipartForm r) as [e|f]; [discriminate|].
    destruct (form_files "file" (File f)) as [|fh' rest] eqn:F; [discriminate|].
    destruct (OpenErr fh') eqn:O; [discriminate|].
    intros [= <-]. repeat split; auto. exists f, rest. auto.
  - intros (U & P & f & rest & E & F & O).
    rewrite U, P, E, F, O. reflexivity.
Qed.

(** The target [*]: the server answers an OPTIONS itself, with an
    empty 200, and the mux answers any other method with an empty
    400. *)
Lemma serve_star r w :
  Path (URL r) = "*" ->
  serve r w
  = (Val tt,
     add_events
       (with_resp w (mkResponse true (if Method r =? "OPTIONS" then 200%Z else 400%Z) []))
       [EvWriteHeader (if Method r =? "OPTIONS" then 200%Z else 400%Z)]).
Proof.
  intros S. unfold serve, serverHandler_ServeHTTP, ServeMux_ServeHTTP, RequestURI_is_star.
  rewrite S. change ("*" =? "*") with true. cbn [andb].
  destruct (Method r =? "OPTIONS"); reflexivity.
Qed.

Lemma serve_redirect r url w :
  RequestURI_is_star r = false ->
  findHandler DefaultServeMux r = RedirectHandler url http_StatusTemporaryRedirect ->
  serve r w
  = (Val tt,
     add_events
       (with_resp w (mkResponse true 307
                       (if Method r =? "GET"
                        then Redirect_body (Redirect_target url) "Temporary Redirect"
                        else [])))
       (EvWriteHeader 307
        :: if Method r =? "GET"
           then [EvWriteBody (Redirect_body (Redirect_target url) "Temporary Redirect")]
           else [])).
Proof.
  intros S F.
  exact (serve_handler r _ w _ S F
           (http_Redirect_fresh r url http_StatusTemporaryRedirect "Temporary Redirect" w)
           eq_refl).
Qed.

(** What serving [r] comes to: the status [st] and the body [bd] depend
    on the request alone; before the response come only log records and
    the parsing of the form ([pre]) and the writes to standard output
    ([mid]); the response is one status line and at most one write of a
    body ([rsp]); after it comes the close of the file if one was
    opened. *)
Lemma serve_summary r :
  exists st bd pre rsp,
    forallb is_quiet_event pre = true /\
    (rsp = [EvWriteHeader st; EvWriteBody bd] \/ rsp = [EvWriteHeader st] /\ bd = []) /\
    (canonical r -> rsp = [EvWriteHeader st; EvWriteBody bd]) /\
    In st [200; 307; 400; 405]%Z /\
    forall w,
    exists mid,
      forallb is_stdout_event mid = true /\
      (upload_file r = None -> mid = []) /\
      serve r w
      = (Val tt,
         mkWorld (w_trace w ++ pre ++ mid ++ rsp ++ close_events (upload_file r))
                 (mkResponse true st bd)
                 (w_stdout w ++ firstn (accepted (List.length (uploaded r)) w) (uploaded r))%list
                 (option_map (fun k => k - accepted (List.length (uploaded r)) w)
                             (w_room w))).
Proof.
  destruct (string_dec (Path (URL r)) "/upload") as [U|N].
  - destruct (string_dec (Method r) "POST") as [P|NP].
    + destruct (upload_file r) as [fh|] eqn:UF.
      * (* a file: 200 *)
        assert (FF : file_field r fh) by (apply upload_file_spec in UF; tauto).
        exists 200%Z, upload_body,
          [EvParseForm; EvLog ("File uploaded successfully" ++ nl)],
          [EvWriteHeader 200; EvWriteBody upload_body].
        split; [reflexivity|]. split; [auto|]. split; [auto|]. split; [cbn; auto|]. intros w.
        destruct (upload_file_run r fh w P FF) as (evs & F & E).
        exists evs. split; [exact F|]. split; [discriminate|].
        rewrite (serve_upload _ _ U), E. unfold uploaded. rewrite UF. reflexivity.
      * (* no file: 400 *)
        exists 400%Z, (bytes_of ("Failed to get file" ++ nl)), [EvParseForm],
          [EvWriteHeader 400; EvWriteBody (bytes_of ("Failed to get file" ++ nl))].
        split; [reflexivity|]. split; [auto|]. split; [auto|]. split; [cbn; auto|]. intros w. exists [].
        split; [reflexivity|]. split; [reflexivity|].
        destruct (FormFile_cases r (with_resp w fresh_response)) as [(e & E)|(fh & FF)].
        -- rewrite (serve_upload _ _ U), (upload_FormFile_fails _ _ _ P E).
           unfold uploaded. rewrite UF. f_equal. apply quiet_world.
        -- assert (upload_file r = Some fh) by (apply upload_file_spec; auto).
           congruence.
    + (* not a POST: 405 *)
      assert (UF : upload_file r = None).
      { unfold upload_file.
        destruct (String.eqb_spec (Method r) "POST"); [congruence|].
        now rewrite andb_false_r. }
      exists 405%Z, (bytes_of ("Invalid method" ++ nl)), [],
        [EvWriteHeader 405; EvWriteBody (bytes_of ("Invalid method" ++ nl))].
      split; [reflexivity|]. split; [auto|]. split; [auto|]. split; [cbn; auto|]. intros w. exists [].
      split; [reflexivity|]. split; [reflexivity|].
      rewrite (serve_upload _ _ U), (upload_not_post _ _ NP).
      unfold uploaded. rewrite UF. f_equal. apply quiet_world.
  - assert (UF : upload_file r = None).
    { unfold upload_file.
      destruct (String.eqb_spec (Path (URL r)) "/upload"); [congruence | reflexivity]. }
    unfold uploaded. rewrite UF. cbn [close_events].
    destruct (string_dec (cleanPath (EscapedPath (URL r))) (EscapedPath (URL r)))
      as [C|NC].
    { (* a path in canonical form: the root handler, 200 *)
      exists 200%Z, root_body, [EvLog (root_record r)],
        [EvWriteHeader 200; EvWriteBody root_body].
      split; [reflexivity|]. split; [auto|]. split; [auto|]. split; [cbn; auto|].
      intros w. exists [].
      split; [reflexivity|]. split; [reflexivity|].
      rewrite (serve_root r w C N), rootHandler_run.
      f_equal. apply quiet_world. }
    destruct (string_dec (Path (URL r)) "*") as [S|NS].
    + (* the target [*] *)
      exists (if Method r =? "OPTIONS" then 200%Z else 400%Z), [], [],
        [EvWriteHeader (if Method r =? "OPTIONS" then 200%Z else 400%Z)].
      split; [reflexivity|]. split; [auto|]. split; [intros C; elim (NC C)|].
      split; [destruct (Method r =? "OPTIONS"); cbn; auto|]. intros w. exists [].
      split; [reflexivity|]. split; [reflexivity|].
      rewrite (serve_star r w S). f_equal. apply quiet_world.
    + assert (St : RequestURI_is_star r = false).
      { unfold RequestURI_is_star. destruct (String.eqb_spec (Path (URL r)) "*"); congruence. }
      destruct (findHandler_cases r N) as [(F & C)|[F|(url & F)]].
      * (* a CONNECT that the tree takes for [/upload]: 405 *)
        assert (NP : Method r <> "POST") by (rewrite C; discriminate).
        exists 405%Z, (bytes_of ("Invalid method" ++ nl)), [],
          [EvWriteHeader 405; EvWriteBody (bytes_of ("Invalid method" ++ nl))].
        split; [reflexivity|]. split; [auto|]. split; [auto|]. split; [cbn; auto|].
        intros w. exists [].
        split; [reflexivity|]. split; [reflexivity|].
        rewrite (serve_handler r _ w _ St F (upload_not_post r w NP) eq_refl).
        f_equal. apply quiet_world.
      * (* a CONNECT that the tree takes for [/]: 200 *)
        exists 200%Z, root_body, [EvLog (root_record r)],
          [EvWriteHeader 200; EvWriteBody root_body].
        split; [reflexivity|]. split; [auto|]. split; [auto|]. split; [cbn; auto|].
        intros w. exists [].
        split; [reflexivity|]. split; [reflexivity|].
        rewrite (serve_handler r _ w _ St F (rootHandler_run r w) eq_refl).
        f_equal. apply quiet_world.
      * (* a redirect: 307 *)
        exists 307%Z,
          (if Method r =? "GET"
           then Redirect_body (Redirect_target url) "Temporary Redirect" else []),
          [],
          (EvWriteHeader 307
           :: if Method r =? "GET"
              then [EvWriteBody (Redirect_body (Redirect_target url) "Temporary Redirect")]
              else []).
        split; [reflexivity|].
        split; [destruct (Method r =? "GET"); auto|].
        split; [intros C; elim (NC C)|].
        split; [cbn; auto|]. intros w. exists [].
        split; [reflexivity|]. split; [reflexivity|].
        rewrite (serve_redirect r url w St F). cbn [app]. rewrite app_nil_r.
        f_equal. apply quiet_world.
Qed.



Lemma existsb_quiet evs :
  forallb is_quiet_event evs = true ->
  existsb is_stdout_event evs = false /\ existsb is_close_event evs = false.
Proof.
  induction evs as [|e evs IH]; simpl; [auto|].
  destruct e; simpl; try discriminate; exact IH.
Qed.

(** ** C5 *)

(** C5.  A request to the upload route with a method other than POST is
    answered 405 with the text [Invalid method], and that is all the
    handler does: the form is not parsed and nothing goes to standard
    output. *)
Theorem upload_rejects_other_methods r w :
  Path (URL r) = "/upload" ->
  Method r <> "POST" ->
  status (w_resp (after (serve r) w)) = 405%Z /\
  body (w_resp (after (serve r) w)) = bytes_of ("Invalid method" ++ nl) /\
  events_of (serve r) w
  = [EvWriteHeader 405; EvWriteBody (bytes_of ("Invalid method" ++ nl))] /\
  w_stdout (after (serve r) w) = w_stdout w.
Proof.
  intros U N.
  assert (E := upload_not_post _ w N). rewrite <- (serve_upload _ _ U) in E.
  unfold after. rewrite (events_of_trace (serve r) w [EvWriteHeader 405;
    EvWriteBody (bytes_of ("Invalid method" ++ nl))]); rewrite E; repeat split.
Qed.

Lemma upload_rejects_other_methods_witness :
  status (w_resp (after (serve ex_get_upload) world0)) = 405%Z /\
  body (w_resp (after (serve ex_get_upload) world0)) = bytes_of ("Invalid method" ++ nl) /\
  events_of (serve ex_get_upload) world0
  = [EvWriteHeader 405; EvWriteBody (bytes_of ("Invalid method" ++ nl))] /\
  w_stdout (after (serve ex_get_upload) world0) = w_stdout world0.
Proof.
  apply upload_rejects_other_methods; [reflexivity | discriminate].
Defined.

(** ** C6 *)

(** C6.  A POST to the upload route whose body has no file under
    [file], or cannot be parsed as a multipart form, is answered 400
    with the text [Failed to get file], and nothing goes to standard
    output. *)
Theorem upload_without_file_is_400 r w :
  Path (URL r) = "/upload" ->
  Method r = "POST" ->
  no_file_field r ->
  status (w_resp (after (serve r) w)) = 400%Z /\
  body (w_resp (after (serve r) w)) = bytes_of ("Failed to get file" ++ nl) /\
  events_of (serve r) w
  = [EvParseForm; EvWriteHeader 400;
     EvWriteBody (bytes_of ("Failed to get file" ++ nl))] /\
  w_stdout (after (serve r) w) = w_stdout w.
Proof.
  intros U P NF.
  destruct (FormFile_no_file _ (with_resp w fresh_response) NF) as (e & E0).
  assert (E := upload_FormFile_fails _ _ _ P E0). rewrite <- (serve_upload _ _ U) in E.
  unfold after. rewrite (events_of_trace (serve r) w [EvParseForm; EvWriteHeader 400;
    EvWriteBody (bytes_of ("Failed to get file" ++ nl))]); rewrite E; repeat split.
Qed.

Lemma upload_without_file_is_400_witness :
  status (w_resp (after (serve ex_post_nofile) world0)) = 400%Z /\
  body (w_resp (after (serve ex_post_nofile) world0)) = bytes_of ("Failed to get file" ++ nl) /\
  events_of (serve ex_post_nofile) world0
  = [EvParseForm; EvWriteHeader 400;
     EvWriteBody (bytes_of ("Failed to get file" ++ nl))] /\
  w_stdout (after (serve ex_post_nofile) world0) = w_stdout world0.
Proof.
  apply upload_without_file_is_400; reflexivity.
Defined.

(** ** C7 *)

(** What the upload route does with a file, with a sink of any size. *)
Lemma upload_file_world r fh w :
  Path (URL r) = "/upload" ->
  Method r = "POST" ->
  file_field r fh ->
  status (w_resp (after (serve r) w)) = 200%Z /\
  body (w_resp (after (serve r) w)) = upload_body /\
  w_stdout (after (serve r) w)
  = (w_stdout w ++ firstn (accepted (List.length (Content fh)) w) (Content fh))%list /\
  exists pre,
    events_of (serve r) w = (pre ++ [EvFileClose (Filename fh)])%list /\
    existsb is_close_event pre = false /\
    log_records pre = ["File uploaded successfully" ++ nl].
Proof.
  intros U P FF.
  destruct (upload_file_run r fh w P FF) as (evs & F & E).
  rewrite <- (serve_upload _ _ U) in E.
  unfold after. rewrite E. cbn [snd w_resp w_stdout status body].
  repeat split.
  exists ([EvParseForm; EvLog ("File uploaded successfully" ++ nl)]
            ++ evs ++ [EvWriteHeader 200; EvWriteBody upload_body])%list.
  repeat split.
  - apply events_of_trace. rewrite E. cbn [snd w_trace].
    rewrite <- !app_assoc. reflexivity.
  - rewrite !existsb_app, (existsb_close_stdout _ F). reflexivity.
  - rewrite !log_records_app, (log_records_stdout _ F). reflexivity.
Qed.

(** C7, as written, fails on a sink that is full: the upload of
    [hello] to a standard output with room for two bytes is answered
    200, and only [he] has been written. *)
Lemma upload_short_write :
  status (w_resp (after (serve ex_post_file) ex_world_small)) = 200%Z /\
  w_stdout (after (serve ex_post_file) ex_world_small) = bytes_of "he" /\
  ~ upload_delivers ex_post_file ex_file ex_world_small.
Proof.
  split; [reflexivity|]. split; [reflexivity|].
  intros (_ & _ & H & _). vm_compute in H. discriminate.
Qed.

(** C7, amended.  A POST to the upload route with a file under [file]
    is answered 200 with the text [File upload successful]; the file is
    closed, once, as the handler's last act, whether or not the copy
    went through; and the file's content is written to standard output
    exactly once provided the sink takes all of it. *)
Theorem upload_file_served r fh w :
  Path (URL r) = "/upload" ->
  Method r = "POST" ->
  file_field r fh ->
  status (w_resp (after (serve r) w)) = 200%Z /\
  body (w_resp (after (serve r) w)) = upload_body /\
  (has_room (List.length (Content fh)) w ->
   w_stdout (after (serve r) w) = (w_stdout w ++ Content fh)%list) /\
  exists pre,
    events_of (serve r) w = (pre ++ [EvFileClose (Filename fh)])%list /\
    existsb is_close_event pre = false.
Proof.
  intros U P FF.
  destruct (upload_file_world r fh w U P FF) as (S & B & O & pre & E & C & _).
  repeat split; auto.
  - intros R. rewrite O. f_equal. unfold has_room, accepted in *.
    destruct (w_room w) as [k|].
    + rewrite Nat.min_r by exact R. apply firstn_all.
    + apply firstn_all.
  - exists pre. auto.
Qed.

Lemma upload_file_served_witness :
  status (w_resp (after (serve ex_post_file) world0)) = 200%Z /\
  body (w_resp (after (serve ex_post_file) world0)) = upload_body /\
  (has_room (List.length (Content ex_file)) world0 ->
   w_stdout (after (serve ex_post_file) world0) = (w_stdout world0 ++ Content ex_file)%list) /\
  exists pre,
    events_of (serve ex_post_file) world0 = (pre ++ [EvFileClose (Filename ex_file)])%list /\
    existsb is_close_event pre = false.
Proof.
  apply upload_file_served; try reflexivity.
  exists (mkForm [] [("file", [ex_file])]), []. repeat split.
Defined.

(** ** C10 *)

(** C10.  A POST to the upload route with a file under [file] is
    answered 200 with the success text even when the copy to standard
    output fails partway: with room for only [k] bytes, fewer than the
    file has, [io.Copy] returns an error after [k] bytes, the handler
    drops it, and the response is the same 200 while standard output
    holds only the first [k] bytes of the file. *)
Theorem upload_200_despite_copy_error r fh w k :
  Path (URL r) = "/upload" ->
  Method r = "POST" ->
  file_field r fh ->
  w_room w = Some k ->
  k < List.length (Content fh) ->
  status (w_resp (after (serve r) w)) = 200%Z /\
  body (w_resp (after (serve r) w)) = upload_body /\
  fst (io_Copy_Stdout (Content fh) w) = Val (k, Some "short write") /\
  w_stdout (after (serve r) w) = (w_stdout w ++ firstn k (Content fh))%list /\
  w_stdout (after (serve r) w) <> (w_stdout w ++ Content fh)%list.
Proof.
  intros U P FF R K.
  destruct (upload_file_world r fh w U P FF) as (S & B & O & _).
  assert (A : accepted (List.length (Content fh)) w = k).
  { unfold accepted. rewrite R. lia. }
  rewrite A in O. repeat split; auto.
  - destruct (io_Copy_Stdout_spec (Content fh) w) as (evs & E & _).
    rewrite E, A. cbn [fst].
    destruct (Nat.ltb_spec k (List.length (Content fh))); [reflexivity | lia].
  - rewrite O. intros H. apply app_inv_head in H.
    apply (f_equal (@List.length byte)) in H.
    rewrite length_firstn in H. lia.
Qed.

Lemma upload_200_despite_copy_error_witness :
  status (w_resp (after (serve ex_post_file) ex_world_small)) = 200%Z /\
  body (w_resp (after (serve ex_post_file) ex_world_small)) = upload_body /\
  fst (io_Copy_Stdout (Content ex_file) ex_world_small) = Val (2, Some "short write") /\
  w_stdout (after (serve ex_post_file) ex_world_small)
  = (w_stdout ex_world_small ++ firstn 2 (Content ex_file))%list /\
  w_stdout (after (serve ex_post_file) ex_world_small)
  <> (w_stdout ex_world_small ++ Content ex_file)%list.
Proof.
  apply upload_200_despite_copy_error; try reflexivity.
  - exists (mkForm [] [("file", [ex_file])]), []. repeat split.
  - vm_compute. lia.
Defined.

(** ** C9 *)






(** A path without its leading slash is redirected to the rooted one,
    and a POST is redirected with a status line alone. *)
Example unrooted_path_is_redirected :
  events_of (serve (mkRequest "POST" (mkURL "x" false "") "p" ex_no_form)) world0
  = [EvWriteHeader 307].
Proof. reflexivity. Qed.

(** ** C4 *)












(** The record of a request for [/a b] holds the path in escaped
    form. *)
Example record_of_escaped_path :
  log_records (events_of (serve ex_get_space) world0)
  = ["HTTP Request: GET /a%20b from 192.0.2.7:40118" ++ nl].
Proof. reflexivity. Qed.

(** ** C1 *)

Lemma append_nil_r (s : string) : s ++ "" = s.
Proof. induction s; simpl; congruence. Qed.

Lemma contains_log_line a e : contains e (log_line (a ++ e)).
Proof.
  unfold log_line. destruct (ends_in_newline (a ++ e)).
  - exists a, "". now rewrite append_nil_r.
  - exists a, nl. now rewrite append_assoc.
Qed.

(** A listener whose endpoint does not bind logs the error and ends
    the process with status 1. *)
Lemma start_bind_fails binds l e w :
  binds l = Some e ->
  exists pre rec,
    contains e rec /\
    match l with
    | HTTP => fst (startHTTPServer binds [] w) = Exited 1 /\
              snd (startHTTPServer binds [] w) = add_events w (pre ++ [EvLog rec; EvExit 1])
    | DNS => fst (startDNSServer binds [] w) = Exited 1 /\
             snd (startDNSServer binds [] w) = add_events w (pre ++ [EvLog rec; EvExit 1])
    | ICMP => fst (startICMPServer binds [] w) = Exited 1 /\
              snd (startICMPServer binds [] w) = add_events w (pre ++ [EvLog rec; EvExit 1])
    | SMTP => fst (startSMTPServer binds [] w) = Exited 1 /\
              snd (startSMTPServer binds [] w) = add_events w (pre ++ [EvLog rec; EvExit 1])
    end.
Proof.
  intros B. destruct l.
  - exists [EvLog ("Starting HTTP server on port 8080" ++ nl)], (log_line e).
    split; [apply (contains_log_line "" e)|].
    unfold startHTTPServer, http_ListenAndServe, ListenAndServe_returned, bind.
    rewrite log_Println_eq, B. unfold ret.
    unfold log_Fatal, log_Output, os_Exit, bind, emit. cbn [fst snd].
    rewrite !add_events_app. split; reflexivity.
  - exists [], (log_line ("Failed to start DNS server: " ++ e)).
    split; [apply contains_log_line|].
    unfold startDNSServer. rewrite B.
    unfold log_Fatal, log_Output, os_Exit, bind, emit. cbn [fst snd].
    rewrite !add_events_app. split; reflexivity.
  - exists [], (log_line ("Failed to start ICMP server: " ++ e)).
    split; [apply contains_log_line|].
    unfold startICMPServer. rewrite B.
    unfold log_Fatal, log_Output, os_Exit, bind, emit. cbn [fst snd].
    rewrite !add_events_app. split; reflexivity.
  - exists [], (log_line ("Failed to start SMTP server: " ++ e)).
    split; [apply contains_log_line|].
    unfold startSMTPServer. rewrite B.
    unfold log_Fatal, log_Output, os_Exit, bind, emit. cbn [fst snd].
    rewrite !add_events_app. split; reflexivity.
Qed.

(** Nothing happens in a process that has exited. *)
Lemma run_exited binds sched : forall p c,
  p_exit p = Some c -> run binds sched p = p.
Proof.
  induction sched as [|s rest IH]; intros p c X; [reflexivity|].
  simpl. assert (S : step binds s p = p) by (unfold step; now rewrite X).
  rewrite S. exact (IH p c X).
Qed.

(** C1, as written, fails: with the UDP endpoint failing to bind and
    the three siblings already in their loops, the start of the DNS
    listener ends the process, and the request, the ICMP unit and the
    connection that arrive afterwards for the siblings are not
    handled. *)
Lemma bind_failure_not_isolated :
  p_exit (main ex_binds_dns_fails ex_sched world0) = Some 1%Z /\
  w_trace (p_world (main ex_binds_dns_fails ex_sched world0))
  = [EvLog ("Starting HTTP server on port 8080" ++ nl);
     EvLog ("ICMP server is listening" ++ nl);
     EvLog ("SMTP server is listening on port 25" ++ nl);
     EvLog ("Failed to start DNS server: listen udp :53: bind: permission denied" ++ nl);
     EvExit 1].
Proof. split; reflexivity. Qed.

(** With every endpoint bound the same schedule serves all three. *)
Example all_bound_all_served :
  let p := main ex_binds_ok ex_sched world0 in
  p_exit p = None /\
  existsb is_response_event (w_trace (p_world p)) = true /\
  sent ICMP (w_trace (p_world p)) = [(["008"; "000"]%byte, "192.0.2.7")] /\
  conn_writes (w_trace (p_world p)) = [bytes_of ("220 Simple SMTP Test Server" ++ nl)].
Proof. repeat split. Qed.

(** C1, amended.  When a listener's endpoint does not bind, the
    listener logs the error and the whole process exits with status 1:
    from then on no goroutine runs, so the sibling listeners handle
    nothing that arrives later. *)
Theorem bind_failure_exits_process binds l e p sched :
  p_exit p = None ->
  p_started p l = false ->
  binds l = Some e ->
  p_exit (step binds (Start l) p) = Some 1%Z /\
  (exists pre rec,
     w_trace (p_world (step binds (Start l) p))
     = (w_trace (p_world p) ++ pre ++ [EvLog rec; EvExit 1])%list /\
     contains e rec) /\
  run binds sched (step binds (Start l) p) = step binds (Start l) p.
Proof.
  intros X S B.
  destruct (start_bind_fails binds l e (p_world p) B) as (pre & rec & C & H).
  assert (G : p_exit (step binds (Start l) p) = Some 1%Z /\
              w_trace (p_world (step binds (Start l) p))
              = (w_trace (p_world p) ++ pre ++ [EvLog rec; EvExit 1])%list).
  { unfold step. rewrite X, S. unfold run_in.
    destruct l; destruct H as (O & W);
      match goal with
      | |- context [match ?m (p_world p) with _ => _ end] =>
          destruct (m (p_world p)) as [o w'] eqn:E
      end; cbn [fst snd] in O, W; subst o w'; split; reflexivity. }
  destruct G as (G1 & G2). split; [exact G1|]. split.
  - exists pre, rec. auto.
  - apply (run_exited binds sched _ 1%Z G1).
Qed.

Lemma bind_failure_exits_process_witness :
  p_exit (step ex_binds_dns_fails (Start DNS) (main_init world0)) = Some 1%Z /\
  (exists pre rec,
     w_trace (p_world (step ex_binds_dns_fails (Start DNS) (main_init world0)))
     = (w_trace (p_world (main_init world0)) ++ pre ++ [EvLog rec; EvExit 1])%list /\
     contains "listen udp :53: bind: permission denied" rec) /\
  run ex_binds_dns_fails ex_sched (step ex_binds_dns_fails (Start DNS) (main_init world0))
  = step ex_binds_dns_fails (Start DNS) (main_init world0).
Proof.
  apply bind_failure_exits_process; reflexivity.
Defined.

(** * Further properties of the listeners *)

(** ** The accept loop *)

Lemma smtp_iter_ok c w :
  smtp_iter (AcceptOk c) w
  = (Val tt,
     add_events w
       [EvLog ("SMTP Connection from " ++ peer c ++ nl);
        EvConnWrite (peer c) smtp_greeting;
        EvSleep 10000000000;
        EvConnClose (peer c)]).
Proof.
  unfold smtp_iter, go, smtp_conn_handler, defer, bind, Conn_Write, Conn_Close,
    time_Sleep, Conn_RemoteAddr, emit, ret.
  rewrite log_Printf_ends by ends_nl. go_steps.
  rewrite !add_events_app. reflexivity.
Qed.

Lemma smtp_iter_err e w :
  smtp_iter (AcceptErr e) w
  = (Val tt, add_events w [EvLog ("Failed to accept SMTP connection: " ++ e ++ nl)]).
Proof. unfold smtp_iter. now rewrite log_Printf_ends by ends_nl. Qed.

Lemma closed_conns_app a b :
  closed_conns (a ++ b) = (closed_conns a ++ closed_conns b)%list.
Proof.
  induction a as [|e a IH]; simpl; [reflexivity|].
  destruct e; simpl; congruence.
Qed.

Lemma written_conns_app a b :
  written_conns (a ++ b) = (written_conns a ++ written_conns b)%list.
Proof.
  induction a as [|e a IH]; simpl; [reflexivity|].
  destruct e; simpl; congruence.
Qed.

(** ** One response per request *)



(** ** The response is a function of the request *)

(** X4.  The status and the body of the response depend on the request
    alone: not on what was served or logged before, and not on whether
    standard output took the uploaded bytes. *)
Theorem response_depends_on_request_alone r w1 w2 :
  status (w_resp (after (serve r) w1)) = status (w_resp (after (serve r) w2)) /\
  body (w_resp (after (serve r) w1)) = body (w_resp (after (serve r) w2)).
Proof.
  destruct (serve_summary r) as (st & bd & pre & rsp & _ & _ & _ & _ & H).
  destruct (H w1) as (mid1 & _ & _ & E1). destruct (H w2) as (mid2 & _ & _ & E2).
  unfold after. rewrite E1, E2. split; reflexivity.
Qed.

(** ** What leaves standard output and files alone *)

(** X5.  A request that is not a POST of [/upload] with a file under
    [file] that opens leaves standard output as it was: the handler
    writes nothing to it and closes no file. *)
Theorem only_upload_touches_stdout r w :
  upload_file r = None ->
  w_stdout (after (serve r) w) = w_stdout w /\
  w_room (after (serve r) w) = w_room w /\
  existsb is_stdout_event (events_of (serve r) w) = false /\
  existsb is_close_event (events_of (serve r) w) = false.
Proof.
  intros UF.
  destruct (serve_summary r) as (st & bd & pre & rsp & Q & D & _ & _ & H).
  destruct (H w) as (mid & _ & M & E). rewrite (M UF) in E.
  unfold after. rewrite (events_of_trace (serve r) w
    (pre ++ [] ++ rsp ++ close_events (upload_file r)))
    by (rewrite E; reflexivity).
  rewrite E. unfold uploaded. rewrite UF. cbn [snd w_stdout w_room List.length firstn].
  rewrite accepted_0, room_sub_0, app_nil_r.
  destruct (existsb_quiet _ Q) as (Q1 & Q2).
  destruct D as [->|(-> & _)];
    repeat split; rewrite ?existsb_app, ?Q1, ?Q2; reflexivity.
Qed.

Lemma only_upload_touches_stdout_witness :
  w_stdout (after (serve ex_post_nofile) ex_world_small) = w_stdout ex_world_small /\
  w_room (after (serve ex_post_nofile) ex_world_small) = w_room ex_world_small /\
  existsb is_stdout_event (events_of (serve ex_post_nofile) ex_world_small) = false /\
  existsb is_close_event (events_of (serve ex_post_nofile) ex_world_small) = false.
Proof. apply only_upload_touches_stdout. reflexivity. Defined.

(** ** The three answers of the upload route *)

Lemma upload_status_of r w :
  Path (URL r) = "/upload" ->
  status (w_resp (after (serve r) w))
  = if Method r =? "POST"
    then match upload_file r with Some _ => 200%Z | None => 400%Z end
    else 405%Z.
Proof.
  intros U. unfold after.
  destruct (String.eqb_spec (Method r) "POST") as [P|NP].
  - destruct (upload_file r) as [fh|] eqn:UF.
    + assert (FF : file_field r fh) by (apply upload_file_spec in UF; tauto).
      destruct (upload_file_run r fh w P FF) as (evs & _ & E).
      now rewrite (serve_upload _ _ U), E.
    + destruct (FormFile_cases r (with_resp w fresh_response)) as [(e & E)|(fh & FF)].
      * now rewrite (serve_upload _ _ U), (upload_FormFile_fails _ _ _ P E).
      * assert (upload_file r = Some fh) by (apply upload_file_spec; auto). congruence.
  - now rewrite (serve_upload _ _ U), (upload_not_post _ _ NP).
Qed.

(** X6.  On the upload route the status tells the three cases apart:
    it is 405 exactly when the method is not POST, 200 exactly when a
    POST carries a file under [file] that opens, and 400 exactly when a
    POST does not, for whatever reason: no such field, a body that does
    not parse, or a file that cannot be opened. *)
Theorem upload_status_tells_the_case r w :
  Path (URL r) = "/upload" ->
  (status (w_resp (after (serve r) w)) = 405%Z <-> Method r <> "POST") /\
  (status (w_resp (after (serve r) w)) = 200%Z <->
   Method r = "POST" /\ exists fh, file_field r fh) /\
  (status (w_resp (after (serve r) w)) = 400%Z <->
   Method r = "POST" /\ ~ exists fh, file_field r fh).
Proof.
  intros U. rewrite (upload_status_of r w U).
  destruct (String.eqb_spec (Method r) "POST") as [P|NP].
  - destruct (upload_file r) as [fh|] eqn:UF.
    + assert (FF : file_field r fh) by (apply upload_file_spec in UF; tauto).
      repeat split; try discriminate; try tauto; eauto;
        try (intros (_ & C); exfalso; eauto).
    + assert (NF : ~ exists fh, file_field r fh).
      { intros (fh & FF).
        assert (upload_file r = Some fh) by (apply upload_file_spec; auto). congruence. }
      repeat split; try discriminate; try tauto;
        try (intros (_ & C); tauto).
  - repeat split; try discriminate; try tauto.
Qed.

Lemma upload_status_tells_the_case_witness :
  (status (w_resp (after (serve ex_post_nofile) world0)) = 405%Z <->
   Method ex_post_nofile <> "POST") /\
  (status (w_resp (after (serve ex_post_nofile) world0)) = 200%Z <->
   Method ex_post_nofile = "POST" /\ exists fh, file_field ex_post_nofile fh) /\
  (status (w_resp (after (serve ex_post_nofile) world0)) = 400%Z <->
   Method ex_post_nofile = "POST" /\ ~ exists fh, file_field ex_post_nofile fh).
Proof. apply upload_status_tells_the_case. reflexivity. Defined.

(** ** The echo listeners on units of any size *)

Lemma icmp_reply_truncated cap u : reply_to (icmp_reply cap) u = icmp_truncated cap u.
Proof.
  unfold reply_to, icmp_reply, icmp_truncated, icmp_message.
  now rewrite skipn_firstn_comm.
Qed.

(** X1.  A unit longer than the buffer is not refused but cut.  The
    datagram listener answers every unit with its first 512 bytes.  The
    raw listener reads the packet, header first, into its 1024 bytes,
    and answers with what of the message found room behind the header:
    the first 1004 bytes behind a header of 20.  Each reply goes to the
    sender of its unit, in the order received, and nothing that an
    earlier unit left in the buffer is ever part of a reply. *)
Theorem echo_truncates_to_buffer binds dns_ins icmp_ins w :
  binds DNS = None ->
  binds ICMP = None ->
  Forall raw_unit icmp_ins ->
  sent DNS (events_of (startDNSServer binds dns_ins) w)
  = map (truncated 512) (units dns_ins) /\
  sent ICMP (events_of (startICMPServer binds icmp_ins) w)
  = map (icmp_truncated 1024) (units icmp_ins).
Proof.
  intros Bd Bi R. split.
  - destruct (startDNSServer_trace binds dns_ins w Bd) as (b & E).
    rewrite (events_of_add _ _ _ _ E). cbn [sent]. rewrite sent_echo_turns. reflexivity.
  - destruct (startICMPServer_trace binds icmp_ins w Bi R) as (b & E).
    rewrite (events_of_add _ _ _ _ E). cbn [sent]. rewrite sent_echo_turns.
    apply map_ext. intros u. apply icmp_reply_truncated.
Qed.

Lemma ex_long_raw_units : Forall raw_unit ex_long_raw_ins.
Proof.
  repeat (apply Forall_cons;
          [first [exact I | vm_compute; repeat split; apply Nat.leb_le; reflexivity]|]).
  apply Forall_nil.
Qed.

Lemma echo_truncates_to_buffer_witness :
  sent DNS (events_of (startDNSServer ex_binds_ok ex_long_ins) world0)
  = map (truncated 512) (units ex_long_ins) /\
  sent ICMP (events_of (startICMPServer ex_binds_ok ex_long_raw_ins) world0)
  = map (icmp_truncated 1024) (units ex_long_raw_ins).
Proof.
  apply echo_truncates_to_buffer; [reflexivity | reflexivity | exact ex_long_raw_units].
Defined.

(** The message of 1100 bytes comes back as its first 1004. *)
Example long_message_cut_to_1004 :
  map (fun u => List.length (fst u))
      (sent ICMP (events_of (startICMPServer ex_binds_ok ex_long_raw_ins) world0))
  = [1004; 2].
Proof. vm_compute. reflexivity. Qed.

(** X2.  A run of an echo listener shows its start record and then,
    turn by turn, one log record per result of [ReadFrom] and, for a
    unit, the reply right after its record, and nothing else.  The
    datagram listener's record of a unit names the sender and gives in
    hexadecimal exactly the bytes it sends back; the raw listener's
    names the sender only, and its reply is the message without the
    header of the packet, as much of it as the buffer held; the record
    of an error carries the error. *)
Theorem echo_listener_trace binds dns_ins icmp_ins w :
  binds DNS = None ->
  binds ICMP = None ->
  Forall raw_unit icmp_ins ->
  events_of (startDNSServer binds dns_ins) w
  = EvLog ("DNS server is listening on port 53" ++ nl)
    :: flat_map (fun r =>
                   match r with
                   | RecvErr e => [EvLog ("Error reading from DNS: " ++ e ++ nl)]
                   | RecvOk p a =>
                       [EvLog ("DNS Request from " ++ a ++ ": "
                               ++ fmt_hex (firstn 512 p) ++ nl);
                        EvSendTo DNS (firstn 512 p) a]
                   end) dns_ins /\
  events_of (startICMPServer binds icmp_ins) w
  = EvLog ("ICMP server is listening" ++ nl)
    :: flat_map (fun r =>
                   match r with
                   | RecvErr e => [EvLog ("Error reading ICMP: " ++ e ++ nl)]
                   | RecvOk p a =>
                       [EvLog ("ICMP Request from " ++ a ++ nl);
                        EvSendTo ICMP (firstn (1024 - ip_header_len p) (icmp_message p)) a]
                   end) icmp_ins.
Proof.
  intros Bd Bi R. split.
  - destruct (startDNSServer_trace binds dns_ins w Bd) as (b & E).
    rewrite (events_of_add _ _ _ _ E). reflexivity.
  - destruct (startICMPServer_trace binds icmp_ins w Bi R) as (b & E).
    rewrite (events_of_add _ _ _ _ E). f_equal.
    apply flat_map_ext. intros [e|p a]; [reflexivity|].
    unfold echo_turn, icmp_reply, icmp_message, icmp_rec_ok.
    now rewrite skipn_firstn_comm.
Qed.

Lemma echo_listener_trace_witness :
  events_of (startDNSServer ex_binds_ok ex_long_ins) world0
  = EvLog ("DNS server is listening on port 53" ++ nl)
    :: flat_map (fun r =>
                   match r with
                   | RecvErr e => [EvLog ("Error reading from DNS: " ++ e ++ nl)]
                   | RecvOk p a =>
                       [EvLog ("DNS Request from " ++ a ++ ": "
                               ++ fmt_hex (firstn 512 p) ++ nl);
                        EvSendTo DNS (firstn 512 p) a]
                   end) ex_long_ins /\
  events_of (startICMPServer ex_binds_ok ex_long_raw_ins) world0
  = EvLog ("ICMP server is listening" ++ nl)
    :: flat_map (fun r =>
                   match r with
                   | RecvErr e => [EvLog ("Error reading ICMP: " ++ e ++ nl)]
                   | RecvOk p a =>
                       [EvLog ("ICMP Request from " ++ a ++ nl);
                        EvSendTo ICMP (firstn (1024 - ip_header_len p) (icmp_message p)) a]
                   end) ex_long_raw_ins.
Proof.
  apply echo_listener_trace; [reflexivity | reflexivity | exact ex_long_raw_units].
Defined.

(** The record of the three bytes 1, 2, 3. *)
Example dns_record_in_hex :
  log_records (events_of (dns_iter (RecvOk ["001"; "002"; "003"]%byte "192.0.2.7:5353")
                                   (make_bytes 512)) world0)
  = ["DNS Request from 192.0.2.7:5353: 010203" ++ nl].
Proof. vm_compute. reflexivity. Qed.

(** ** Goroutines side by side *)

Lemma Permutation_flat_map {A B} (f : A -> list B) l l' :
  Permutation l l' -> Permutation (flat_map f l) (flat_map f l').
Proof.
  induction 1 as [|x l l' _ IH|x y l|l l' l'' _ IH1 _ IH2]; cbn [flat_map].
  - constructor.
  - now apply Permutation_app_head.
  - rewrite !app_assoc. apply Permutation_app_tail, Permutation_app_comm.
  - now transitivity (flat_map f l').
Qed.

Lemma written_conns_flat tr :
  written_conns tr
  = flat_map (fun e => match e with EvConnWrite p b => [(p, b)] | _ => [] end) tr.
Proof. induction tr as [|e tr IH]; [reflexivity|]. destruct e; cbn; congruence. Qed.

Lemma closed_conns_flat tr :
  closed_conns tr
  = flat_map (fun e => match e with EvConnClose p => [p] | _ => [] end) tr.
Proof. induction tr as [|e tr IH]; [reflexivity|]. destruct e; cbn; congruence. Qed.

Lemma log_records_flat tr :
  log_records tr
  = flat_map (fun e => match e with EvLog r => [r] | _ => [] end) tr.
Proof. induction tr as [|e tr IH]; [reflexivity|]. destruct e; cbn; congruence. Qed.

Lemma existsb_conn_read_perm tr tr' :
  Permutation tr tr' -> existsb is_conn_read tr = existsb is_conn_read tr'.
Proof.
  induction 1 as [|x l l' _ IH|x y l|l l' l'' _ IH1 _ IH2]; cbn [existsb].
  - reflexivity.
  - now rewrite IH.
  - now rewrite !orb_assoc, (orb_comm (is_conn_read y)).
  - congruence.
Qed.

(** A goroutine that is done takes no turn. *)
Lemma pool_run_done_first gs w w' :
  pool_run gs w w' -> pool_run ([] :: gs) w w'.
Proof.
  induction 1 as [gs w F|pre s g post w w1 w' E _ IH].
  - apply pool_done. constructor; [reflexivity | exact F].
  - exact (@pool_step ([] :: pre) s g post w w1 w' E IH).
Qed.

(** Goroutines whose statements all return can be run to their ends. *)
Lemma pool_run_exists gs ess :
  Forall2 (Forall2 emits) gs ess -> forall w, exists w', pool_run gs w w'.
Proof.
  induction 1 as [|g es gs ess G _ IH]; intros w.
  - exists w. apply pool_done. constructor.
  - revert w. induction G as [|s ev g es S _ IHg]; intros w.
    + destruct (IH w) as (w' & R). exists w'. now apply pool_run_done_first.
    + destruct (IHg (add_events w ev)) as (w' & R). exists w'.
      exact (@pool_step [] s g gs w _ w' (S w) R).
Qed.

Lemma all_done_no_events gs ess :
  Forall2 (Forall2 emits) gs ess ->
  Forall (fun g => g = []) gs ->
  List.concat (map (@List.concat Event) ess) = [].
Proof.
  induction 1 as [|g es gs ess G _ IH]; intros D; [reflexivity|].
  inversion D as [|? ? Dg Dgs]; subst. inversion G; subst.
  cbn. now apply IH.
Qed.

(** However the scheduler lets the goroutines take turns, the events of
    the run are the events of their statements, each once. *)
Lemma pool_run_events gs w w' :
  pool_run gs w w' ->
  forall ess,
    Forall2 (Forall2 emits) gs ess ->
    exists tr,
      w_trace w' = (w_trace w ++ tr)%list /\
      Permutation tr (List.concat (map (@List.concat Event) ess)).
Proof.
  induction 1 as [gs w D|pre s g post w w1 w' E _ IH]; intros ess F.
  - exists []. rewrite app_nil_r, (all_done_no_events gs ess F D). split; constructor.
  - apply Forall2_app_inv_l in F. destruct F as (epre & el & Fpre & Fl & ->).
    inversion Fl as [|? es ? epost Fg Fpost]; subst.
    inversion Fg as [|? ev ? eg S Fg']; subst.
    destruct (IH (epre ++ eg :: epost)%list) as (tr & T & P).
    { apply Forall2_app; [exact Fpre|]. constructor; assumption. }
    rewrite (S w) in E. injection E as <-.
    exists (ev ++ tr)%list. split.
    + rewrite T. cbn [add_events w_trace]. unfold add_events. cbn [w_trace].
      now rewrite app_assoc.
    + rewrite !map_app, !concat_app in *. cbn [map List.concat] in *.
      rewrite <- app_assoc.
      rewrite (Permutation_app_swap_app (List.concat (map (@List.concat Event) epre))).
      now apply Permutation_app_head.
Qed.

(** ** The greeting listener over many connections *)

(** The events of the statements of one handler, statement by
    statement, and of the accept loop. *)
Lemma smtp_conn_statements_emit c :
  Forall2 emits (smtp_conn_statements c) (smtp_conn_events c).
Proof.
  unfold smtp_conn_statements, smtp_conn_events. repeat constructor; intros w.
  unfold Conn_RemoteAddr. now rewrite log_Printf_ends by ends_nl.
Qed.

Lemma accept_loop_statements_emit ins :
  Forall2 emits (accept_loop_statements ins) (accept_loop_events ins).
Proof.
  unfold accept_loop_events.
  induction ins as [|[e|c] rest IH]; cbn; [constructor | | exact IH].
  constructor; [|exact IH]. intros w. apply smtp_iter_err.
Qed.

(** The statements of a handler, run one after another, are the
    handler. *)
Lemma run_statements_handler c w :
  run_statements (smtp_conn_statements c) w = smtp_conn_handler c w.
Proof.
  unfold run_statements, smtp_conn_statements, smtp_conn_handler, defer, bind,
    Conn_Write, Conn_Close, time_Sleep, Conn_RemoteAddr, emit, ret.
  rewrite log_Printf_ends by ends_nl. reflexivity.
Qed.

Lemma smtp_pool_emits ins :
  Forall2 (Forall2 emits) (smtp_pool ins) (smtp_pool_events ins).
Proof.
  constructor; [apply accept_loop_statements_emit|].
  induction (accepted_conns ins) as [|c cs IH]; cbn [map]; constructor;
    [apply smtp_conn_statements_emit | exact IH].
Qed.

Lemma accept_loop_events_read ins :
  written_conns (List.concat (accept_loop_events ins)) = [] /\
  closed_conns (List.concat (accept_loop_events ins)) = [] /\
  List.length (log_records (List.concat (accept_loop_events ins)))
  = List.length (accept_errors ins) /\
  existsb is_conn_read (List.concat (accept_loop_events ins)) = false.
Proof.
  unfold accept_loop_events.
  induction (accept_errors ins) as [|e es (W & C & L & R)]; [repeat split|].
  cbn [map List.concat app written_conns closed_conns log_records List.length
       existsb is_conn_read orb].
  rewrite L. auto.
Qed.

Lemma smtp_conn_events_read cs :
  written_conns (List.concat (map (@List.concat Event) (map smtp_conn_events cs)))
  = map (fun c => (peer c, smtp_greeting)) cs /\
  closed_conns (List.concat (map (@List.concat Event) (map smtp_conn_events cs)))
  = map peer cs /\
  List.length (log_records (List.concat (map (@List.concat Event) (map smtp_conn_events cs))))
  = List.length cs /\
  existsb is_conn_read (List.concat (map (@List.concat Event) (map smtp_conn_events cs)))
  = false.
Proof.
  induction cs as [|c cs (W & C & L & R)]; [repeat split|].
  cbn [map List.concat smtp_conn_events app written_conns closed_conns log_records
       List.length existsb is_conn_read orb].
  rewrite W, C, L, R. auto.
Qed.

Lemma accept_results_count ins :
  List.length (accept_errors ins) + List.length (accepted_conns ins) = List.length ins.
Proof.
  induction ins as [|[e|c] rest IH]; cbn [accept_errors accepted_conns List.length]; lia.
Qed.

Lemma smtp_pool_events_read ins :
  written_conns (List.concat (map (@List.concat Event) (smtp_pool_events ins)))
  = map (fun c => (peer c, smtp_greeting)) (accepted_conns ins) /\
  closed_conns (List.concat (map (@List.concat Event) (smtp_pool_events ins)))
  = map peer (accepted_conns ins) /\
  List.length (log_records (List.concat (map (@List.concat Event) (smtp_pool_events ins))))
  = List.length ins /\
  existsb is_conn_read (List.concat (map (@List.concat Event) (smtp_pool_events ins))) = false.
Proof.
  unfold smtp_pool_events. cbn [map List.concat].
  rewrite written_conns_app, closed_conns_app, log_records_app, length_app, existsb_app.
  destruct (accept_loop_events_read ins) as (W1 & C1 & L1 & R1).
  destruct (smtp_conn_events_read (accepted_conns ins)) as (W2 & C2 & L2 & R2).
  rewrite W1, C1, L1, R1, W2, C2, L2, R2, accept_results_count. auto.
Qed.

(** X7.  The handlers of the greeting listener are goroutines of their
    own.  However the scheduler lets them and the accept loop take
    turns, a run gives every accepted connection the greeting exactly
    once and closes it exactly once, also when the write to another
    connection failed; it logs one record per result of [Accept], and
    reads from no connection.  In which order the connections are
    written to and closed is up to the scheduler.  And there is such a
    run: no statement blocks for good or ends the process. *)
Theorem accepted_connections_greeted_and_closed ins w :
  (exists w', pool_run (smtp_pool ins) w w') /\
  forall w',
    pool_run (smtp_pool ins) w w' ->
    exists tr,
      w_trace w' = (w_trace w ++ tr)%list /\
      Permutation (written_conns tr)
                  (map (fun c => (peer c, smtp_greeting)) (accepted_conns ins)) /\
      Permutation (closed_conns tr) (map peer (accepted_conns ins)) /\
      List.length (log_records tr) = List.length ins /\
      existsb is_conn_read tr = false.
Proof.
  split; [exact (pool_run_exists _ _ (smtp_pool_emits ins) w)|].
  intros w' R.
  destruct (pool_run_events _ _ _ R _ (smtp_pool_emits ins)) as (tr & T & P).
  destruct (smtp_pool_events_read ins) as (W & C & L & Rd).
  exists tr. split; [exact T|].
  rewrite <- W, <- C, <- L, <- Rd.
  rewrite !written_conns_flat, !closed_conns_flat, !log_records_flat.
  split; [now apply Permutation_flat_map|].
  split; [now apply Permutation_flat_map|].
  split; [apply Permutation_length; now apply Permutation_flat_map|].
  now apply existsb_conn_read_perm.
Qed.

Lemma accepted_connections_greeted_and_closed_witness :
  exists tr,
    w_trace (add_events world0 ex_interleaved) = (w_trace world0 ++ tr)%list /\
    Permutation (written_conns tr)
                (map (fun c => (peer c, smtp_greeting)) (accepted_conns ex_accepts)) /\
    Permutation (closed_conns tr) (map peer (accepted_conns ex_accepts)) /\
    List.length (log_records tr) = List.length ex_accepts /\
    existsb is_conn_read tr = false.
Proof.
  apply (proj2 (accepted_connections_greeted_and_closed ex_accepts world0)).
  eapply (@pool_step [_] _ _ [_]); [reflexivity|].
  eapply (@pool_step [_; _] _ _ []); [reflexivity|].
  eapply (@pool_step [_; _] _ _ []); [reflexivity|].
  eapply (@pool_step [] _ _ [_; _]); [reflexivity|].
  eapply (@pool_step [_] _ _ [_]); [reflexivity|].
  eapply (@pool_step [_; _] _ _ []); [reflexivity|].
  eapply (@pool_step [_] _ _ [_]); [reflexivity|].
  eapply (@pool_step [_; _] _ _ []); [reflexivity|].
  eapply (@pool_step [_] _ _ [_]); [reflexivity|].
  apply pool_done. repeat constructor.
Defined.

(** ** Uploads on one connection *)

Lemma serve_stdout r w :
  has_room (List.length (uploaded r)) w ->
  fst (serve r w) = Val tt /\
  w_stdout (after (serve r) w) = (w_stdout w ++ uploaded r)%list /\
  w_room (after (serve r) w)
  = option_map (fun k => k - List.length (uploaded r)) (w_room w).
Proof.
  intros R.
  destruct (serve_summary r) as (st & bd & pre & rsp & _ & _ & _ & _ & H).
  destruct (H w) as (mid & _ & _ & E).
  assert (A : accepted (List.length (uploaded r)) w = List.length (uploaded r)).
  { unfold accepted, has_room in *. destruct (w_room w); [lia | reflexivity]. }
  unfold after. rewrite E, A. cbn [fst snd w_stdout w_room].
  now rewrite firstn_all.
Qed.

(** X8.  The requests of one connection are served by one goroutine,
    one after another.  While that goroutine is the only one that
    writes to standard output, the files uploaded on the connection
    reach standard output whole, each once, in the order of the
    requests, with nothing between them and nothing from any other
    request, as long as standard output takes the bytes.  (Uploads on
    different connections are copied by different goroutines, 32 KiB
    at a time, and may fall between each other.) *)
Theorem uploads_reach_stdout_in_order reqs : forall w,
  has_room (List.length (flat_map uploaded reqs)) w ->
  fst (conn_serve reqs w) = Val tt /\
  w_stdout (after (conn_serve reqs) w) = (w_stdout w ++ flat_map uploaded reqs)%list.
Proof.
  induction reqs as [|r rest IH]; intros w R.
  - unfold after. simpl. now rewrite app_nil_r.
  - cbn [flat_map] in *. rewrite length_app in R.
    assert (R1 : has_room (List.length (uploaded r)) w).
    { unfold has_room in *. destruct (w_room w); [lia | exact I]. }
    destruct (serve_stdout r w R1) as (V & O & K).
    unfold after in *. cbn [conn_serve]. unfold bind.
    destruct (serve r w) as [o w1]. cbn [fst snd] in V, O, K. subst o.
    assert (R2 : has_room (List.length (flat_map uploaded rest)) w1).
    { unfold has_room in *. rewrite K. destruct (w_room w); cbn [option_map]; [lia | exact I]. }
    destruct (IH w1 R2) as (V' & O'). split; [exact V'|].
    rewrite O', O, app_assoc. reflexivity.
Qed.

Lemma uploads_reach_stdout_in_order_witness :
  fst (conn_serve ex_requests world0) = Val tt /\
  w_stdout (after (conn_serve ex_requests) world0)
  = (w_stdout world0 ++ flat_map uploaded ex_requests)%list.
Proof. apply uploads_reach_stdout_in_order. exact I. Defined.

Example two_uploads_on_stdout :
  w_stdout (after (conn_serve ex_requests) world0) = bytes_of "hellohello".
Proof. vm_compute. reflexivity. Qed.

(** ** What ends the process *)

Lemma run_in_val {A} p (m : M A) k a w' :
  m (p_world p) = (Val a, w') ->
  run_in p m k = k a (mkProcess w' (p_exit p) (p_started p) (p_dns_buf p) (p_icmp_buf p)).
Proof. intros E. unfold run_in. now rewrite E. Qed.

Lemma run_in_exited {A} p (m : M A) k c w' :
  m (p_world p) = (Exited c, w') ->
  run_in p m k = mkProcess w' (Some c) (p_started p) (p_dns_buf p) (p_icmp_buf p).
Proof. intros E. unfold run_in. now rewrite E. Qed.

Lemma serve_returns r w : exists w', serve r w = (Val tt, w').
Proof.
  destruct (serve_summary r) as (st & bd & pre & rsp & _ & _ & _ & _ & H).
  destruct (H w) as (mid & _ & _ & E). eauto.
Qed.

Lemma smtp_iter_returns a w : exists w', smtp_iter a w = (Val tt, w').
Proof.
  destruct a as [e|c]; [rewrite smtp_iter_err | rewrite smtp_iter_ok]; eauto.
Qed.

(** A listener whose endpoint binds reaches its loop. *)
Lemma start_bound binds l w :
  binds l = None ->
  match l with
  | HTTP => exists w', startHTTPServer binds [] w = (Val tt, w')
  | DNS => exists b w', startDNSServer binds [] w = (Val b, w')
  | ICMP => exists b w', startICMPServer binds [] w = (Val b, w')
  | SMTP => exists w', startSMTPServer binds [] w = (Val tt, w')
  end.
Proof.
  intros B. destruct l.
  - unfold startHTTPServer, http_ListenAndServe, bind. rewrite log_Println_eq, B.
    eexists. reflexivity.
  - destruct (startDNSServer_trace binds [] w B) as (b & E). eauto.
  - destruct (startICMPServer_trace binds [] w B (Forall_nil _)) as (b & E). eauto.
  - unfold startSMTPServer. rewrite B. unfold bind. rewrite log_Println_eq.
    eexists. reflexivity.
Qed.

Lemma mark_started_bound binds l p :
  binds l = None -> started_are_bound binds p ->
  started_are_bound binds (mark_started l p).
Proof.
  intros B I l'. unfold mark_started. cbn [p_started].
  destruct (ListenerId_eqb l l') eqn:E.
  - intros _. destruct l, l'; try discriminate; exact B.
  - apply I.
Qed.

(** A step that calls [log.Fatal] nowhere leaves the process alive. *)
Lemma step_alive binds s p :
  p_exit p = None ->
  started_are_bound binds p ->
  (forall l, s = Start l -> binds l = None) ->
  (forall e, s = HTTPAcceptFails e -> p_started p HTTP = false) ->
  p_exit (step binds s p) = None /\
  started_are_bound binds (step binds s p) /\
  p_started (step binds s p) HTTP
  = match s with Start HTTP => true | _ => p_started p HTTP end.
Proof.
  intros X I OK NF. unfold step. rewrite X.
  destruct s as [l|r|e|r|r|a].
  - destruct (p_started p l) eqn:S.
    { split; [exact X|]. split; [exact I|]. destruct l; try reflexivity. exact S. }
    pose proof (start_bound binds l (p_world p) (OK l eq_refl)) as H.
    destruct l.
    + destruct H as (w' & E). rewrite (run_in_val _ _ _ _ _ E).
      split; [exact X|].
      split; [apply mark_started_bound; [apply OK; reflexivity | exact I] | reflexivity].
    + destruct H as (b & w' & E). rewrite (run_in_val _ _ _ _ _ E).
      split; [exact X|].
      split; [apply mark_started_bound; [apply OK; reflexivity | exact I] | reflexivity].
    + destruct H as (b & w' & E). rewrite (run_in_val _ _ _ _ _ E).
      split; [exact X|].
      split; [apply mark_started_bound; [apply OK; reflexivity | exact I] | reflexivity].
    + destruct H as (w' & E). rewrite (run_in_val _ _ _ _ _ E).
      split; [exact X|].
      split; [apply mark_started_bound; [apply OK; reflexivity | exact I] | reflexivity].
  - destruct (p_started p HTTP) eqn:S; [|repeat split; assumption].
    destruct (serve_returns r (p_world p)) as (w' & E).
    rewrite (run_in_val _ _ _ _ _ E). repeat split; assumption.
  - rewrite (NF e eq_refl). repeat split; try assumption. exact (NF e eq_refl).
  - destruct (p_started p DNS); [|repeat split; assumption].
    destruct (dns_iter_returns r (p_dns_buf p)) as (b & evs & E).
    rewrite (run_in_val _ _ _ _ _ (E (p_world p))). repeat split; assumption.
  - destruct (p_started p ICMP); [|repeat split; assumption].
    destruct (icmp_iter_returns r (p_icmp_buf p)) as (b & evs & E).
    rewrite (run_in_val _ _ _ _ _ (E (p_world p))). repeat split; assumption.
  - destruct (p_started p SMTP); [|repeat split; assumption].
    destruct (smtp_iter_returns a (p_world p)) as (w' & E).
    rewrite (run_in_val _ _ _ _ _ E). repeat split; assumption.
Qed.

(** The start of a listener whose endpoint fails to bind ends it. *)
Lemma step_dies binds l e p :
  p_exit p = None ->
  started_are_bound binds p ->
  binds l = Some e ->
  p_exit (step binds (Start l) p) = Some 1%Z.
Proof.
  intros X I B. unfold step. rewrite X.
  destruct (p_started p l) eqn:S; [rewrite (I l S) in B; discriminate|].
  destruct (start_bind_fails binds l e (p_world p) B) as (pre & rec & _ & H).
  destruct l; destruct H as (O & W);
    match goal with
    | |- context [run_in p ?m _] =>
        destruct (m (p_world p)) as [o w'] eqn:E
    end; cbn [fst] in O; subst o; rewrite (run_in_exited _ _ _ _ _ E); reflexivity.
Qed.

(** [Accept] of the HTTP listener fails for good: [ListenAndServe]
    returns the error, [log.Fatal] logs it and ends the process. *)
Lemma step_accept_fails binds e p :
  p_exit p = None ->
  p_started p HTTP = true ->
  p_exit (step binds (HTTPAcceptFails e) p) = Some 1%Z /\
  w_trace (p_world (step binds (HTTPAcceptFails e) p))
  = (w_trace (p_world p) ++ [EvLog (log_line e); EvExit 1])%list.
Proof.
  intros X S. unfold step. rewrite X, S. split; [reflexivity|].
  unfold run_in, ListenAndServe_returned, log_Fatal, log_Output, os_Exit, bind, emit.
  cbn [p_world w_trace add_events]. unfold add_events. cbn [w_trace].
  now rewrite <- app_assoc.
Qed.

Lemma run_alive_iff binds sched : forall p,
  p_exit p = None ->
  started_are_bound binds p ->
  (p_exit (run binds sched p) = None <->
   fatal_free binds (p_started p HTTP) sched = true) /\
  (forall c, p_exit (run binds sched p) = Some c -> c = 1%Z).
Proof.
  induction sched as [|s rest IH]; intros p X I.
  - cbn [run fatal_free]. split; [tauto | congruence].
  - cbn [run].
    assert (D : ((forall l, s = Start l -> binds l = None) /\
                 (forall e, s = HTTPAcceptFails e -> p_started p HTTP = false)) \/
                (exists l e, s = Start l /\ binds l = Some e) \/
                (exists e, s = HTTPAcceptFails e /\ p_started p HTTP = true)).
    { destruct s as [l| |e| | |]; try (left; split; intros; discriminate).
      - destruct (binds l) as [e|] eqn:B.
        + right; left. eauto.
        + left. split; [intros l' [= <-]; exact B | intros; discriminate].
      - destruct (p_started p HTTP) eqn:S.
        + right; right. eauto.
        + left. split; [intros; discriminate | intros; reflexivity]. }
    destruct D as [(OK & NF)|[(l & e & -> & B)|(e & -> & S)]].
    + destruct (step_alive binds s p X I OK NF) as (X' & I' & H').
      destruct (IH _ X' I') as (A & C). split; [|exact C].
      rewrite A, H'.
      destruct s as [l|r|e|r|r|a]; cbn [fatal_free]; try tauto.
      * rewrite (OK l eq_refl). destruct l; tauto.
      * rewrite (NF e eq_refl). tauto.
    + pose proof (step_dies binds l e p X I B) as D.
      rewrite (run_exited binds rest _ 1%Z D), D. cbn [fatal_free]. rewrite B.
      split; [split; discriminate | intros c [= <-]; reflexivity].
    + destruct (step_accept_fails binds e p X S) as (D & _).
      rewrite (run_exited binds rest _ 1%Z D), D. cbn [fatal_free]. rewrite S.
      split; [split; discriminate | intros c [= <-]; reflexivity].
Qed.

(** X9.  The code ends the process itself in four places, all of them
    [log.Fatal], and they are reached in two situations only: a
    listener is started whose endpoint does not bind, or [Accept] of
    the HTTP listener fails with an error that is not temporary while
    that listener is in its loop, so that [http.ListenAndServe]
    returns.  Whatever else arrives, in whatever order (receive and
    accept errors of the other listeners, requests of any kind, units
    of any size, writes that fail), no step calls [os.Exit]; and when
    one does, the exit status is 1. *)
Theorem process_exits_on_fatal_steps_only binds sched w :
  (p_exit (main binds sched w) = None <-> fatal_free binds false sched = true) /\
  (forall c, p_exit (main binds sched w) = Some c -> c = 1%Z).
Proof.
  unfold main. apply (run_alive_iff binds sched (main_init w)); [reflexivity|].
  intros l S. discriminate.
Qed.

(** The HTTP listener binds, serves a request, and then [Accept]
    fails: the error is logged and the process is over; the datagram
    that arrives afterwards is not answered. *)
Example accept_failure_ends_process :
  let p := main ex_binds_ok
             [Start HTTP; Start DNS; Request_ ex_get_root;
              HTTPAcceptFails "accept tcp [::]:8080: use of closed network connection";
              Datagram (RecvOk ["001"]%byte "192.0.2.1:1")] world0 in
  p_exit p = Some 1%Z /\
  last (w_trace (p_world p)) EvParseForm = EvExit 1 /\
  sent DNS (w_trace (p_world p)) = [].
Proof. repeat split. Qed.

(** ** The listeners side by side *)

Lemma sent_quiet l evs : forallb is_quiet_event evs = true -> sent l evs = [].
Proof.
  induction evs as [|e evs IH]; simpl; [reflexivity|].
  destruct e; simpl; try discriminate; exact IH.
Qed.

Lemma sent_stdout l evs : forallb is_stdout_event evs = true -> sent l evs = [].
Proof.
  induction evs as [|e evs IH]; simpl; [reflexivity|].
  destruct e; simpl; try discriminate; exact IH.
Qed.

(** Serving a request hands nothing to [WriteTo]. *)
Lemma serve_sends_nothing l r w :
  exists w' evs,
    serve r w = (Val tt, w') /\
    w_trace w' = (w_trace w ++ evs)%list /\
    sent l evs = [].
Proof.
  destruct (serve_summary r) as (st & bd & pre & rsp & Q & D & _ & _ & H).
  destruct (H w) as (mid & F & _ & E).
  eexists. eexists. split; [exact E|]. split; [reflexivity|].
  rewrite !sent_app, (sent_quiet l _ Q), (sent_stdout l _ F).
  destruct D as [->|(-> & _)]; destruct (upload_file r); reflexivity.
Qed.

Lemma smtp_iter_sends_nothing l a w :
  exists w' evs,
    smtp_iter a w = (Val tt, w') /\
    w_trace w' = (w_trace w ++ evs)%list /\
    sent l evs = [].
Proof.
  destruct a as [e|c]; [rewrite smtp_iter_err | rewrite smtp_iter_ok];
    eexists; eexists; (split; [reflexivity|]); split; reflexivity.
Qed.

(** What the start of a listener whose endpoint binds leaves. *)
Lemma start_bound_world binds w :
  (forall l, binds l = None) ->
  startHTTPServer binds [] w
  = (Val tt, add_events w [EvLog ("Starting HTTP server on port 8080" ++ nl)]) /\
  startDNSServer binds [] w
  = (Val (make_bytes 512), add_events w [EvLog ("DNS server is listening on port 53" ++ nl)]) /\
  startICMPServer binds [] w
  = (Val (make_bytes 1024), add_events w [EvLog ("ICMP server is listening" ++ nl)]) /\
  startSMTPServer binds [] w
  = (Val tt, add_events w [EvLog ("SMTP server is listening on port 25" ++ nl)]).
Proof.
  intros B.
  unfold startHTTPServer, http_ListenAndServe, startDNSServer, startICMPServer,
    startSMTPServer, bind.
  rewrite !B, !log_Println_eq. repeat split.
Qed.

Lemma echo_turn_sent_other l l' reply rec_ok rec_err r :
  ListenerId_eqb l l' = false -> sent l (echo_turn l' reply rec_ok rec_err r) = [].
Proof. intros N. destruct r; simpl; [reflexivity|]. now rewrite N. Qed.

Lemma echo_turn_sent_own l reply rec_ok rec_err r :
  sent l (echo_turn l reply rec_ok rec_err r) = map (reply_to reply) (units [r]).
Proof. destruct r; simpl; [reflexivity|]. destruct l; reflexivity. Qed.

(** One turn of the datagram loop, for any result of [ReadFrom]. *)
Lemma dns_iter_turn r buf w :
  List.length buf = 512 ->
  exists buf',
    dns_iter r buf w
    = (Val buf', add_events w (echo_turn DNS (firstn 512) dns_rec_ok dns_rec_err r)) /\
    List.length buf' = 512.
Proof.
  intros L. destruct r as [e|p a]; [|exact (dns_iter_good p a buf w L I)].
  exists buf. now rewrite dns_iter_err.
Qed.

(** One turn of the raw loop, for an error or a packet. *)
Lemma icmp_iter_turn r buf w :
  raw_unit r ->
  List.length buf = 1024 ->
  exists buf',
    icmp_iter r buf w
    = (Val buf', add_events w (echo_turn ICMP (icmp_reply 1024) icmp_rec_ok icmp_rec_err r)) /\
    List.length buf' = 1024.
Proof.
  intros R L. destruct r as [e|p a]; [|exact (icmp_iter_good p a buf w L R)].
  exists buf. now rewrite icmp_iter_err.
Qed.

Lemma units_cons r rest : units (r :: rest) = (units [r] ++ units rest)%list.
Proof. destruct r; reflexivity. Qed.

Ltac proc_simpl :=
  cbn [p_world p_exit p_started p_dns_buf p_icmp_buf mark_started set_dns_buf set_icmp_buf
       ListenerId_eqb w_trace add_events].

(** One step of the process, seen from the datagram listener. *)
Lemma step_dns binds s rest p :
  (forall l, binds l = None) ->
  (forall e, s <> HTTPAcceptFails e) ->
  (forall u, s = RawUnit u -> raw_unit u) ->
  p_exit p = None ->
  (p_started p DNS = true -> List.length (p_dns_buf p) = 512) ->
  (p_started p ICMP = true -> List.length (p_icmp_buf p) = 1024) ->
  p_exit (step binds s p) = None /\
  (p_started (step binds s p) DNS = true -> List.length (p_dns_buf (step binds s p)) = 512) /\
  (sent DNS (w_trace (p_world (step binds s p)))
   ++ map (truncated 512) (units (dns_delivered (p_started (step binds s p) DNS) rest)))%list
  = (sent DNS (w_trace (p_world p))
     ++ map (truncated 512) (units (dns_delivered (p_started p DNS) (s :: rest))))%list.
Proof.
  intros B NF RU X L Li.
  destruct (start_bound_world binds (p_world p) B) as (SH & SD & SI & SS).
  unfold step. rewrite X. destruct s as [l|r|e|u|u|a].
  - destruct (p_started p l) eqn:S.
    + split; [exact X|]. split; [first [exact L | intros ?; congruence]|]. destruct l; cbn [dns_delivered]; try reflexivity.
      now rewrite S.
    + destruct l.
      * rewrite (run_in_val _ _ _ _ _ SH). proc_simpl.
        split; [exact X|]. split; [first [exact L | intros ?; congruence]|]. rewrite sent_app. cbn [sent dns_delivered].
        now rewrite app_nil_r.
      * rewrite (run_in_val _ _ _ _ _ SD). proc_simpl.
        split; [exact X|]. split; [intros _; apply make_bytes_length|].
        rewrite sent_app. cbn [sent dns_delivered]. now rewrite app_nil_r.
      * rewrite (run_in_val _ _ _ _ _ SI). proc_simpl.
        split; [exact X|]. split; [first [exact L | intros ?; congruence]|]. rewrite sent_app. cbn [sent dns_delivered].
        now rewrite app_nil_r.
      * rewrite (run_in_val _ _ _ _ _ SS). proc_simpl.
        split; [exact X|]. split; [first [exact L | intros ?; congruence]|]. rewrite sent_app. cbn [sent dns_delivered].
        now rewrite app_nil_r.
  - cbn [dns_delivered]. destruct (p_started p HTTP); [|split; [exact X|]; split; [first [exact L | intros ?; congruence] | rewrite ?S; reflexivity]].
    destruct (serve_sends_nothing DNS r (p_world p)) as (w' & evs & E & T & N).
    rewrite (run_in_val _ _ _ _ _ E). proc_simpl.
    split; [exact X|]. split; [first [exact L | intros ?; congruence]|]. now rewrite T, sent_app, N, app_nil_r.
  - elim (NF e eq_refl).
  - cbn [dns_delivered]. destruct (p_started p DNS) eqn:S; [|split; [exact X|]; split; [first [exact L | intros ?; congruence] | rewrite ?S; reflexivity]].
    destruct (dns_iter_turn u (p_dns_buf p) (p_world p) (L eq_refl)) as (b & E & Lb).
    rewrite (run_in_val _ _ _ _ _ E). proc_simpl. rewrite S.
    split; [exact X|]. split; [intros _; exact Lb|].
    rewrite sent_app, echo_turn_sent_own.
    rewrite (units_cons u (dns_delivered true rest)), map_app, <- !app_assoc. reflexivity.
  - cbn [dns_delivered]. destruct (p_started p ICMP) eqn:Si; [|split; [exact X|]; split; [first [exact L | intros ?; congruence] | rewrite ?S; reflexivity]].
    destruct (icmp_iter_turn u (p_icmp_buf p) (p_world p) (RU u eq_refl) (Li eq_refl))
      as (b & E & Lb).
    rewrite (run_in_val _ _ _ _ _ E). proc_simpl.
    split; [exact X|]. split; [first [exact L | intros ?; congruence]|].
    now rewrite sent_app, echo_turn_sent_other, app_nil_r by reflexivity.
  - cbn [dns_delivered]. destruct (p_started p SMTP); [|split; [exact X|]; split; [first [exact L | intros ?; congruence] | rewrite ?S; reflexivity]].
    destruct (smtp_iter_sends_nothing DNS a (p_world p)) as (w' & evs & E & T & N).
    rewrite (run_in_val _ _ _ _ _ E). proc_simpl.
    split; [exact X|]. split; [first [exact L | intros ?; congruence]|]. now rewrite T, sent_app, N, app_nil_r.
Qed.

(** The same step, seen from the raw listener. *)
Lemma step_icmp binds s rest p :
  (forall l, binds l = None) ->
  (forall e, s <> HTTPAcceptFails e) ->
  (forall u, s = RawUnit u -> raw_unit u) ->
  p_exit p = None ->
  (p_started p DNS = true -> List.length (p_dns_buf p) = 512) ->
  (p_started p ICMP = true -> List.length (p_icmp_buf p) = 1024) ->
  p_exit (step binds s p) = None /\
  (p_started (step binds s p) ICMP = true ->
   List.length (p_icmp_buf (step binds s p)) = 1024) /\
  (sent ICMP (w_trace (p_world (step binds s p)))
   ++ map (reply_to (icmp_reply 1024)) (units (icmp_delivered (p_started (step binds s p) ICMP) rest)))%list
  = (sent ICMP (w_trace (p_world p))
     ++ map (reply_to (icmp_reply 1024)) (units (icmp_delivered (p_started p ICMP) (s :: rest))))%list.
Proof.
  intros B NF RU X Ld L.
  destruct (start_bound_world binds (p_world p) B) as (SH & SD & SI & SS).
  unfold step. rewrite X. destruct s as [l|r|e|u|u|a].
  - destruct (p_started p l) eqn:S.
    + split; [exact X|]. split; [first [exact L | intros ?; congruence]|]. destruct l; cbn [icmp_delivered]; try reflexivity.
      now rewrite S.
    + destruct l.
      * rewrite (run_in_val _ _ _ _ _ SH). proc_simpl.
        split; [exact X|]. split; [first [exact L | intros ?; congruence]|]. rewrite sent_app. cbn [sent icmp_delivered].
        now rewrite app_nil_r.
      * rewrite (run_in_val _ _ _ _ _ SD). proc_simpl.
        split; [exact X|]. split; [first [exact L | intros ?; congruence]|]. rewrite sent_app. cbn [sent icmp_delivered].
        now rewrite app_nil_r.
      * rewrite (run_in_val _ _ _ _ _ SI). proc_simpl.
        split; [exact X|]. split; [intros _; apply make_bytes_length|].
        rewrite sent_app. cbn [sent icmp_delivered]. now rewrite app_nil_r.
      * rewrite (run_in_val _ _ _ _ _ SS). proc_simpl.
        split; [exact X|]. split; [first [exact L | intros ?; congruence]|]. rewrite sent_app. cbn [sent icmp_delivered].
        now rewrite app_nil_r.
  - cbn [icmp_delivered]. destruct (p_started p HTTP); [|split; [exact X|]; split; [first [exact L | intros ?; congruence] | rewrite ?S; reflexivity]].
    destruct (serve_sends_nothing ICMP r (p_world p)) as (w' & evs & E & T & N).
    rewrite (run_in_val _ _ _ _ _ E). proc_simpl.
    split; [exact X|]. split; [first [exact L | intros ?; congruence]|]. now rewrite T, sent_app, N, app_nil_r.
  - elim (NF e eq_refl).
  - cbn [icmp_delivered]. destruct (p_started p DNS) eqn:Sd; [|split; [exact X|]; split; [first [exact L | intros ?; congruence] | rewrite ?S; reflexivity]].
    destruct (dns_iter_turn u (p_dns_buf p) (p_world p) (Ld eq_refl)) as (b & E & Lb).
    rewrite (run_in_val _ _ _ _ _ E). proc_simpl.
    split; [exact X|]. split; [first [exact L | intros ?; congruence]|].
    now rewrite sent_app, echo_turn_sent_other, app_nil_r by reflexivity.
  - cbn [icmp_delivered]. destruct (p_started p ICMP) eqn:S; [|split; [exact X|]; split; [first [exact L | intros ?; congruence] | rewrite ?S; reflexivity]].
    destruct (icmp_iter_turn u (p_icmp_buf p) (p_world p) (RU u eq_refl) (L eq_refl))
      as (b & E & Lb).
    rewrite (run_in_val _ _ _ _ _ E). proc_simpl. rewrite S.
    split; [exact X|]. split; [intros _; exact Lb|].
    rewrite sent_app, echo_turn_sent_own.
    rewrite (units_cons u (icmp_delivered true rest)), map_app, <- !app_assoc. reflexivity.
  - cbn [icmp_delivered]. destruct (p_started p SMTP); [|split; [exact X|]; split; [first [exact L | intros ?; congruence] | rewrite ?S; reflexivity]].
    destruct (smtp_iter_sends_nothing ICMP a (p_world p)) as (w' & evs & E & T & N).
    rewrite (run_in_val _ _ _ _ _ E). proc_simpl.
    split; [exact X|]. split; [first [exact L | intros ?; congruence]|]. now rewrite T, sent_app, N, app_nil_r.
Qed.

Lemma run_echo binds sched : forall p,
  (forall l, binds l = None) ->
  (forall e, ~ In (HTTPAcceptFails e) sched) ->
  (forall u, In (RawUnit u) sched -> raw_unit u) ->
  p_exit p = None ->
  (p_started p DNS = true -> List.length (p_dns_buf p) = 512) ->
  (p_started p ICMP = true -> List.length (p_icmp_buf p) = 1024) ->
  sent DNS (w_trace (p_world (run binds sched p)))
  = (sent DNS (w_trace (p_world p))
     ++ map (truncated 512) (units (dns_delivered (p_started p DNS) sched)))%list /\
  sent ICMP (w_trace (p_world (run binds sched p)))
  = (sent ICMP (w_trace (p_world p))
     ++ map (reply_to (icmp_reply 1024))
            (units (icmp_delivered (p_started p ICMP) sched)))%list.
Proof.
  induction sched as [|s rest IH]; intros p B NF RU X Ld Li.
  - cbn. now rewrite !app_nil_r.
  - assert (NFs : forall e, s <> HTTPAcceptFails e).
    { intros e ->. exact (NF e (or_introl eq_refl)). }
    assert (RUs : forall u, s = RawUnit u -> raw_unit u).
    { intros u ->. exact (RU u (or_introl eq_refl)). }
    destruct (step_dns binds s rest p B NFs RUs X Ld Li) as (X' & Ld' & Ed).
    destruct (step_icmp binds s rest p B NFs RUs X Ld Li) as (_ & Li' & Ei).
    cbn [run].
    destruct (IH (step binds s p) B
                (fun e H => NF e (or_intror H)) (fun u H => RU u (or_intror H))
                X' Ld' Li') as (Hd & Hi).
    rewrite Hd, Hi. split; [exact Ed | exact Ei].
Qed.

(** X10.  With every endpoint bound and the HTTP listener accepting,
    what an echo listener sends is settled by its own units alone:
    however the goroutines are started and however the requests,
    connections and units of the other listeners fall between them,
    the datagram listener's replies are the first 512 bytes of each
    unit that reached it after its start, in order, and the raw
    listener's are the messages of its own packets, each cut to what
    the buffer of 1024 bytes held of it behind the header. *)
Theorem echo_listeners_keep_to_their_own_units binds sched w :
  (forall l, binds l = None) ->
  (forall e, ~ In (HTTPAcceptFails e) sched) ->
  (forall u, In (RawUnit u) sched -> raw_unit u) ->
  sent DNS (w_trace (p_world (main binds sched w)))
  = (sent DNS (w_trace w)
     ++ map (truncated 512) (units (dns_delivered false sched)))%list /\
  sent ICMP (w_trace (p_world (main binds sched w)))
  = (sent ICMP (w_trace w)
     ++ map (icmp_truncated 1024) (units (icmp_delivered false sched)))%list.
Proof.
  intros B NF RU. unfold main.
  destruct (run_echo binds sched (main_init w) B NF RU eq_refl)
    as (Hd & Hi); try discriminate.
  split; [exact Hd|]. rewrite Hi. f_equal.
  apply map_ext. intros u. apply icmp_reply_truncated.
Qed.

Lemma echo_listeners_keep_to_their_own_units_witness :
  sent DNS (w_trace (p_world (main ex_binds_ok ex_mixed_sched world0)))
  = (sent DNS (w_trace world0)
     ++ map (truncated 512) (units (dns_delivered false ex_mixed_sched)))%list /\
  sent ICMP (w_trace (p_world (main ex_binds_ok ex_mixed_sched world0)))
  = (sent ICMP (w_trace world0)
     ++ map (icmp_truncated 1024) (units (icmp_delivered false ex_mixed_sched)))%list.
Proof.
  apply echo_listeners_keep_to_their_own_units.
  - reflexivity.
  - intros e H. cbn in H.
    repeat (destruct H as [H|H]; [discriminate H|]). exact H.
  - intros u H. cbn [In ex_mixed_sched] in H.
    repeat (destruct H as [H|H];
            [first [discriminate H
                   | injection H as <-; vm_compute; repeat split; apply Nat.leb_le; reflexivity]|]).
    elim H.
Defined.

(** The raw listener's second packet carried 1100 bytes of message;
    1004 came back. *)
Example mixed_schedule_replies :
  map (fun u => List.length (fst u))
      (sent ICMP (w_trace (p_world (main ex_binds_ok ex_mixed_sched world0))))
  = [2; 1004].
Proof. vm_compute. reflexivity. Qed.
